(** * Byword legal intake: phone parsing and jurisdiction lookup

    A shallow embedding of [international_phone_system.py] and
    [main_international_manager.py], and the properties of the
    specification stated and settled against it.

    Conventions of the embedding.
    - A Python [str] is a [string]; each character stands for one code
      point below 256.  On that range the regular expression class [\d]
      is exactly the ten characters 0..9, and [str.lower] moves A..Z and
      the Latin-1 capitals down by 32.
    - A [dict] that is iterated ([.items()]) is an association list in
      insertion order; a [dict] that is only looked up is a [gmap].
    - [Optional[str]] is [option string]; a subscript that may raise
      [KeyError] returns [option]. *)

From Stdlib Require Import String Ascii NArith.
From stdpp Require Import gmap strings list.

Local Open Scope N_scope.
Local Open Scope nat_scope.
Local Open Scope stdpp_scope.

(** ** Python string primitives *)

Module Py.

(** [s.startswith(p)] *)
Fixpoint startswith (s p : string) {struct p} : bool :=
  match p, s with
  | EmptyString, _ => true
  | String _ _, EmptyString => false
  | String a p', String b s' => Ascii.eqb a b && startswith s' p'
  end.

(** [s[:k]] *)
Fixpoint take (k : nat) (s : string) : string :=
  match k, s with
  | S k', String c s' => String c (take k' s')
  | _, _ => EmptyString
  end.

(** [s[k:]] *)
Fixpoint drop (k : nat) (s : string) : string :=
  match k, s with
  | S k', String _ s' => drop k' s'
  | _, _ => s
  end.

(** [s[a:b]] for literal bounds [0 <= a <= b] *)
Definition slice (a b : nat) (s : string) : string := take (b - a) (drop a s).

(** [\d] on code points below 256 *)
Definition is_digit (c : ascii) : bool :=
  match c with
  | "0" | "1" | "2" | "3" | "4" | "5" | "6" | "7" | "8" | "9" => true
  | _ => false
  end%char.

Fixpoint filter (f : ascii → bool) (s : string) : string :=
  match s with
  | EmptyString => EmptyString
  | String c s' => if f c then String c (filter f s') else filter f s'
  end.

(** [re.sub(r'[^\d]', '', s)] *)
Definition strip_non_digits (s : string) : string := filter is_digit s.

(** [s.replace('+', '')] *)
Definition remove_plus (s : string) : string :=
  filter (λ c, negb (Ascii.eqb c "+")) s.

Definition between (lo hi n : N) : bool := ((lo <=? n) && (n <=? hi))%N.

Definition lower_char (c : ascii) : ascii :=
  let n := N_of_ascii c in
  if between 65 90 n || between 192 214 n || between 216 222 n
  then ascii_of_N (n + 32) else c.

(** [s.lower()] *)
Fixpoint lower (s : string) : string :=
  match s with
  | EmptyString => EmptyString
  | String c s' => String (lower_char c) (lower s')
  end.

(** [s.upper()].  The sharp s becomes two letters, as in Python.  The
    micro sign and y-diaeresis have capitals above 255; they are left
    in place, which like their capitals are not ASCII letters. *)
Fixpoint upper (s : string) : string :=
  match s with
  | EmptyString => EmptyString
  | String c s' =>
      let n := N_of_ascii c in
      if (n =? 223)%N then String "S" (String "S" (upper s'))
      else if between 97 122 n || between 224 246 n || between 248 254 n
      then String (ascii_of_N (n - 32)) (upper s')
      else String c (upper s')
  end.

(** [needle in hay] on strings *)
Fixpoint contains (hay needle : string) : bool :=
  startswith hay needle ||
  match hay with
  | EmptyString => false
  | String _ hay' => contains hay' needle
  end.

(** truthiness of a string, and of an optional string *)
Definition truthy (s : string) : bool := negb (String.eqb s "").

Definition truthy_opt (o : option string) : bool :=
  match o with Some s => truthy s | None => false end.

(** [x in xs] for a list of strings *)
Definition mem (x : string) (xs : list string) : bool :=
  existsb (String.eqb x) xs.

(** [d.get(k, "")] and [d[k]] on an insertion-ordered dict *)
Fixpoint assoc {V} (k : string) (d : list (string * V)) : option V :=
  match d with
  | [] => None
  | (k', v) :: d' => if String.eqb k' k then Some v else assoc k d'
  end.

(** [str.isspace] on code points below 256 *)
Definition is_space (c : ascii) : bool :=
  let n := N_of_ascii c in
  between 9 13 n || between 28 32 n || (n =? 133)%N || (n =? 160)%N.

(** [s.lstrip()], [s.rstrip()], [s.strip()] *)
Fixpoint lstrip (s : string) : string :=
  match s with
  | EmptyString => EmptyString
  | String c s' => if is_space c then lstrip s' else s
  end.

Fixpoint rstrip (s : string) : string :=
  match s with
  | EmptyString => EmptyString
  | String c s' =>
      match rstrip s' with
      | EmptyString => if is_space c then EmptyString else String c EmptyString
      | r => String c r
      end
  end.

Definition strip (s : string) : string := rstrip (lstrip s).

(** [[A-Z]] *)
Definition is_upper (c : ascii) : bool := between 65 90 (N_of_ascii c).

End Py.

(** ** Phone system: data model

    Fields keep the names of the source; where two records of the source
    share a field name, the fields of the table records carry a prefix
    ([cp_] for a phone profile, [j_] for a jurisdiction, [st_] for a state). *)

Record PhoneNumberInfo := {
  raw_number : string;
  formatted_number : string;
  international_format : string;
  country_code : string;
  national_number : string;
  area_code : option string;
  is_valid : bool;
  phone_type : string;
  country_name : string;
  timezone : string
}.

Record CountryPhoneInfo := {
  cp_country_code : string;
  cp_calling_code : string;
  cp_country_name : string;
  cp_phone_formats : list (string * string);
  cp_national_prefix : string;
  cp_international_prefix : string;
  cp_mobile_prefixes : list string;
  cp_emergency_numbers : list (string * string);
  cp_area_codes : option (gmap string string)
}.

(** Characters of the tables above code point 127. *)
Definition ch (n : N) : string := String (ascii_of_N n) "".

Definition nanp_formats : list (string * string) :=
  [("international", "+1 (XXX) XXX-XXXX"); ("national", "(XXX) XXX-XXXX");
   ("compact", "XXX-XXX-XXXX"); ("digits_only", "XXXXXXXXXX")].

Definition same_number (n : string) : list (string * string) :=
  [("police", n); ("fire", n); ("medical", n); ("general", n)].

Definition us_area_codes : gmap string string :=
  list_to_map
    [("303", "Denver Metro Area"); ("720", "Denver Metro Area (overlay)");
     ("719", "Colorado Springs, Pueblo"); ("970", "Northern and Western Colorado");
     ("213", "Los Angeles"); ("310", "West Los Angeles, Beverly Hills");
     ("323", "Los Angeles (overlay)"); ("415", "San Francisco");
     ("510", "Oakland, Berkeley"); ("650", "San Mateo County");
     ("707", "Napa, Santa Rosa"); ("714", "Orange County");
     ("760", "San Diego County North"); ("805", "Santa Barbara, Ventura");
     ("818", "San Fernando Valley"); ("831", "Monterey, Santa Cruz");
     ("858", "San Diego"); ("909", "San Bernardino"); ("916", "Sacramento");
     ("949", "South Orange County"); ("212", "Manhattan"); ("347", "NYC (overlay)");
     ("646", "Manhattan (overlay)"); ("718", "Brooklyn, Queens, Bronx, Staten Island");
     ("917", "NYC (overlay)"); ("214", "Dallas"); ("281", "Houston suburbs");
     ("512", "Austin"); ("713", "Houston"); ("832", "Houston (overlay)");
     ("972", "Dallas suburbs")].

Definition ca_area_codes : gmap string string :=
  list_to_map
    [("416", "Toronto"); ("647", "Toronto (overlay)"); ("437", "Toronto (overlay)");
     ("613", "Ottawa"); ("905", "Greater Toronto Area");
     ("289", "Hamilton area (overlay)"); ("519", "London, Windsor");
     ("705", "Northern Ontario"); ("807", "Thunder Bay area");
     ("604", "Vancouver"); ("778", "Vancouver (overlay)"); ("236", "Vancouver (overlay)");
     ("250", "Rest of British Columbia"); ("403", "Calgary"); ("587", "Calgary (overlay)");
     ("780", "Edmonton"); ("825", "Edmonton (overlay)"); ("514", "Montreal");
     ("438", "Montreal (overlay)"); ("450", "Montreal suburbs");
     ("579", "Montreal suburbs (overlay)"); ("418", "Quebec City");
     ("819", "Eastern Quebec")].

Definition INTERNATIONAL_PHONE_DATABASE : list (string * CountryPhoneInfo) :=
  [ ("united_states",
     {| cp_country_code := "US"; cp_calling_code := "+1";
        cp_country_name := "United States"; cp_phone_formats := nanp_formats;
        cp_national_prefix := "1"; cp_international_prefix := "011";
        cp_mobile_prefixes := []; cp_emergency_numbers := same_number "911";
        cp_area_codes := Some us_area_codes |});
    ("canada",
     {| cp_country_code := "CA"; cp_calling_code := "+1";
        cp_country_name := "Canada"; cp_phone_formats := nanp_formats;
        cp_national_prefix := "1"; cp_international_prefix := "011";
        cp_mobile_prefixes := []; cp_emergency_numbers := same_number "911";
        cp_area_codes := Some ca_area_codes |});
    ("australia",
     {| cp_country_code := "AU"; cp_calling_code := "+61";
        cp_country_name := "Australia";
        cp_phone_formats :=
          [("international", "+61 X XXXX XXXX"); ("national", "0X XXXX XXXX");
           ("compact", "XXXXXXXXXX"); ("digits_only", "XXXXXXXXXX")];
        cp_national_prefix := "0"; cp_international_prefix := "0011";
        cp_mobile_prefixes := ["04"; "05"]; cp_emergency_numbers := same_number "000";
        cp_area_codes := Some (list_to_map
          [("02", "New South Wales, Australian Capital Territory");
           ("03", "Victoria, Tasmania"); ("07", "Queensland");
           ("08", "South Australia, Western Australia, Northern Territory");
           ("04", "Mobile phones"); ("05", "Mobile phones (alternative)")]) |});
    ("united_kingdom",
     {| cp_country_code := "GB"; cp_calling_code := "+44";
        cp_country_name := "United Kingdom";
        cp_phone_formats :=
          [("international", "+44 XXXX XXX XXX"); ("national", "0XXXX XXX XXX");
           ("compact", "XXXXXXXXXXX"); ("digits_only", "XXXXXXXXXXX")];
        cp_national_prefix := "0"; cp_international_prefix := "00";
        cp_mobile_prefixes := ["07"];
        cp_emergency_numbers := same_number "999" ++ [("european", "112")];
        cp_area_codes := Some (list_to_map
          [("020", "London"); ("0121", "Birmingham"); ("0131", "Edinburgh");
           ("0141", "Glasgow"); ("0151", "Liverpool"); ("0161", "Manchester");
           ("0113", "Leeds"); ("0114", "Sheffield"); ("0115", "Nottingham");
           ("0116", "Leicester"); ("0117", "Bristol"); ("0118", "Reading");
           ("01223", "Cambridge"); ("01865", "Oxford"); ("01904", "York")]) |});
    ("germany",
     {| cp_country_code := "DE"; cp_calling_code := "+49";
        cp_country_name := "Germany";
        cp_phone_formats :=
          [("international", "+49 XXX XXXXXXX"); ("national", "0XXX XXXXXXX");
           ("compact", "XXXXXXXXXXX"); ("digits_only", "XXXXXXXXXXX")];
        cp_national_prefix := "0"; cp_international_prefix := "00";
        cp_mobile_prefixes := ["015"; "016"; "017"];
        cp_emergency_numbers :=
          [("police", "110"); ("fire", "112"); ("medical", "112"); ("general", "112")];
        cp_area_codes := Some (list_to_map
          [("030", "Berlin"); ("040", "Hamburg"); ("069", "Frankfurt am Main");
           ("089", "Munich"); ("0221", "Cologne");
           ("0211", "D" +:+ ch 252 +:+ "sseldorf"); ("0201", "Essen");
           ("0231", "Dortmund"); ("0711", "Stuttgart"); ("0351", "Dresden")]) |});
    ("france",
     {| cp_country_code := "FR"; cp_calling_code := "+33";
        cp_country_name := "France";
        cp_phone_formats :=
          [("international", "+33 X XX XX XX XX"); ("national", "0X XX XX XX XX");
           ("compact", "XXXXXXXXXX"); ("digits_only", "XXXXXXXXXX")];
        cp_national_prefix := "0"; cp_international_prefix := "00";
        cp_mobile_prefixes := ["06"; "07"];
        cp_emergency_numbers :=
          [("police", "17"); ("fire", "18"); ("medical", "15"); ("general", "112")];
        cp_area_codes := Some (list_to_map
          [("01", ch 206 +:+ "le-de-France (Paris region)");
           ("02", "Northwest France"); ("03", "Northeast France");
           ("04", "Southeast France"); ("05", "Southwest France");
           ("06", "Mobile phones"); ("07", "Mobile phones")]) |});
    ("brazil",
     {| cp_country_code := "BR"; cp_calling_code := "+55";
        cp_country_name := "Brazil";
        cp_phone_formats :=
          [("international", "+55 XX XXXXX-XXXX"); ("national", "(XX) XXXXX-XXXX");
           ("compact", "XXXXXXXXXXX"); ("digits_only", "XXXXXXXXXXX")];
        cp_national_prefix := "0"; cp_international_prefix := "00";
        cp_mobile_prefixes := ["9"];
        cp_emergency_numbers :=
          [("police", "190"); ("fire", "193"); ("medical", "192"); ("general", "911")];
        cp_area_codes := Some (list_to_map
          [("11", "S" +:+ ch 227 +:+ "o Paulo"); ("21", "Rio de Janeiro");
           ("31", "Belo Horizonte"); ("41", "Curitiba"); ("47", "Joinville");
           ("48", "Florian" +:+ ch 243 +:+ "polis"); ("51", "Porto Alegre");
           ("61", "Bras" +:+ ch 237 +:+ "lia"); ("62", "Goi" +:+ ch 226 +:+ "nia");
           ("71", "Salvador"); ("81", "Recife"); ("85", "Fortaleza")]) |});
    ("india",
     {| cp_country_code := "IN"; cp_calling_code := "+91";
        cp_country_name := "India";
        cp_phone_formats :=
          [("international", "+91 XXXXX XXXXX"); ("national", "XXXXX XXXXX");
           ("compact", "XXXXXXXXXX"); ("digits_only", "XXXXXXXXXX")];
        cp_national_prefix := "0"; cp_international_prefix := "00";
        cp_mobile_prefixes := ["6"; "7"; "8"; "9"];
        cp_emergency_numbers :=
          [("police", "100"); ("fire", "101"); ("medical", "102"); ("general", "112")];
        cp_area_codes := Some (list_to_map
          [("11", "Delhi"); ("22", "Mumbai"); ("33", "Kolkata"); ("40", "Hyderabad");
           ("44", "Chennai"); ("80", "Bangalore"); ("20", "Pune");
           ("79", "Ahmedabad")]) |});
    ("japan",
     {| cp_country_code := "JP"; cp_calling_code := "+81";
        cp_country_name := "Japan";
        cp_phone_formats :=
          [("international", "+81 XX-XXXX-XXXX"); ("national", "0XX-XXXX-XXXX");
           ("compact", "XXXXXXXXXXX"); ("digits_only", "XXXXXXXXXXX")];
        cp_national_prefix := "0"; cp_international_prefix := "010";
        cp_mobile_prefixes := ["070"; "080"; "090"];
        cp_emergency_numbers :=
          [("police", "110"); ("fire", "119"); ("medical", "119"); ("general", "110")];
        cp_area_codes := Some (list_to_map
          [("03", "Tokyo"); ("06", "Osaka"); ("052", "Nagoya"); ("011", "Sapporo");
           ("022", "Sendai"); ("092", "Fukuoka"); ("075", "Kyoto");
           ("045", "Yokohama")]) |});
    ("mexico",
     {| cp_country_code := "MX"; cp_calling_code := "+52";
        cp_country_name := "Mexico";
        cp_phone_formats :=
          [("international", "+52 XX XXXX XXXX"); ("national", "XX XXXX XXXX");
           ("compact", "XXXXXXXXXX"); ("digits_only", "XXXXXXXXXX")];
        cp_national_prefix := "01"; cp_international_prefix := "00";
        cp_mobile_prefixes := ["1"]; cp_emergency_numbers := same_number "911";
        cp_area_codes := Some (list_to_map
          [("55", "Mexico City"); ("33", "Guadalajara"); ("81", "Monterrey");
           ("222", "Puebla"); ("228", "Veracruz"); ("664", "Tijuana");
           ("998", "Canc" +:+ ch 250 +:+ "n")]) |}) ].

(** ** Phone system: [InternationalPhoneManager] *)

Definition phone_db := INTERNATIONAL_PHONE_DATABASE.

(** Digits of a profile's calling code: [calling_code.replace('+', '')] *)
Definition calling_digits (info : CountryPhoneInfo) : string :=
  Py.remove_plus (cp_calling_code info).

Definition _clean_phone_number (phone_number : string) : string :=
  if Py.startswith phone_number "+"
  then "+" +:+ Py.strip_non_digits (Py.drop 1 phone_number)
  else Py.strip_non_digits phone_number.

(** The loop of [_detect_country_from_number] over [phone_db.items()] *)
Fixpoint detect_loop (digits : string) (db : list (string * CountryPhoneInfo))
  : option string :=
  match db with
  | [] => None
  | (country_key, country_info) :: rest =>
      if Py.startswith digits (calling_digits country_info)
      then Some country_key
      else detect_loop digits rest
  end.

Definition _detect_country_from_number (cleaned_number : string) : option string :=
  if negb (Py.startswith cleaned_number "+") then None
  else detect_loop (Py.drop 1 cleaned_number) phone_db.

(** The loop of [_get_country_key_from_code], and of the two scans of
    [format_for_dialing]: first entry whose ISO code equals [code]. *)
Fixpoint find_by_code (code : string) (db : list (string * CountryPhoneInfo))
  : option (string * CountryPhoneInfo) :=
  match db with
  | [] => None
  | (country_key, country_info) :: rest =>
      if String.eqb (cp_country_code country_info) code
      then Some (country_key, country_info)
      else find_by_code code rest
  end.

Definition _get_country_key_from_code (country_code : string) : option string :=
  fst <$> find_by_code (Py.upper country_code) phone_db.

Definition _validate_number_for_country
  (national_number : string) (country_info : CountryPhoneInfo) : bool :=
  let code := cp_country_code country_info in
  let len := String.length national_number in
  if Py.mem code ["US"; "CA"] then len =? 10
  else if String.eqb code "AU" then len =? 9
  else if String.eqb code "GB" then (10 <=? len) && (len <=? 11)
  else if String.eqb code "DE" then (10 <=? len) && (len <=? 12)
  else if String.eqb code "FR" then len =? 9
  else if String.eqb code "IN" then len =? 10
  else if String.eqb code "JP" then (10 <=? len) && (len <=? 11)
  else 7 <=? len.

Definition _determine_phone_type
  (national_number : string) (country_info : CountryPhoneInfo) : string :=
  if existsb (Py.startswith national_number) (cp_mobile_prefixes country_info)
  then "mobile"
  else if Py.startswith national_number "800" || Py.startswith national_number "855"
  then "toll_free"
  else if Py.startswith national_number "900" then "premium"
  else "landline".

(** The loop [for length in [2, 3, 4, 5]] of [_extract_area_code] *)
Fixpoint extract_loop (area_codes : gmap string string) (national_number : string)
  (lengths : list nat) : option string :=
  match lengths with
  | [] => None
  | len :: rest =>
      let potential_area_code := Py.take len national_number in
      if (len <=? String.length national_number)
         && bool_decide (is_Some (area_codes !! potential_area_code))
      then Some potential_area_code
      else extract_loop area_codes national_number rest
  end.

Definition _extract_area_code
  (national_number : string) (country_info : CountryPhoneInfo) : option string :=
  let area_codes := default ∅ (cp_area_codes country_info) in
  extract_loop area_codes national_number [2; 3; 4; 5].

(** [national_number[0]] is reached only behind [len(national_number) == 9],
    where it is the one-character prefix. *)
Definition _apply_formatting
  (national_number : string) (country_info : CountryPhoneInfo) : string :=
  let n := national_number in
  let code := cp_country_code country_info in
  let len := String.length n in
  if Py.mem code ["US"; "CA"] && (len =? 10)
  then "(" +:+ Py.take 3 n +:+ ") " +:+ Py.slice 3 6 n +:+ "-" +:+ Py.drop 6 n
  else if String.eqb code "AU" && (len =? 9)
  then Py.take 1 n +:+ " " +:+ Py.slice 1 5 n +:+ " " +:+ Py.drop 5 n
  else if String.eqb code "GB"
  then if len =? 10
       then Py.take 4 n +:+ " " +:+ Py.slice 4 7 n +:+ " " +:+ Py.drop 7 n
       else Py.take 3 n +:+ " " +:+ Py.slice 3 6 n +:+ " " +:+ Py.drop 6 n
  else if String.eqb code "DE"
  then Py.take 3 n +:+ " " +:+ Py.drop 3 n
  else if String.eqb code "FR" && (len =? 9)
  then Py.take 1 n +:+ " " +:+ Py.slice 1 3 n +:+ " " +:+ Py.slice 3 5 n
       +:+ " " +:+ Py.slice 5 7 n +:+ " " +:+ Py.drop 7 n
  else n.

Definition _format_number
  (national_number : string) (country_info : CountryPhoneInfo) (format_type : string)
  : string :=
  if String.eqb format_type "international"
  then cp_calling_code country_info +:+ " "
       +:+ _apply_formatting national_number country_info
  else _apply_formatting national_number country_info.

Definition timezone_mapping : list (string * gmap string string) :=
  [ ("united_states", list_to_map
       [("303", "America/Denver"); ("720", "America/Denver");
        ("719", "America/Denver"); ("970", "America/Denver");
        ("213", "America/Los_Angeles"); ("415", "America/Los_Angeles");
        ("212", "America/New_York")]);
    ("canada", list_to_map
       [("416", "America/Toronto"); ("604", "America/Vancouver")]);
    ("australia", list_to_map
       [("02", "Australia/Sydney"); ("03", "Australia/Melbourne");
        ("07", "Australia/Brisbane"); ("08", "Australia/Perth")]) ].

Definition default_timezones : list (string * string) :=
  [ ("united_states", "America/New_York"); ("canada", "America/Toronto");
    ("australia", "Australia/Sydney"); ("united_kingdom", "Europe/London");
    ("germany", "Europe/Berlin"); ("france", "Europe/Paris") ].

(** [area_code in timezone_mapping[country_key]] is false for [None]. *)
Definition _get_timezone_for_area_code
  (area_code : option string) (country_key : string) : string :=
  match Py.assoc country_key timezone_mapping, area_code with
  | Some by_area, Some ac =>
      match by_area !! ac with
      | Some tz => tz
      | None => default "UTC" (Py.assoc country_key default_timezones)
      end
  | _, _ => default "UTC" (Py.assoc country_key default_timezones)
  end.

Definition _parse_for_country
  (cleaned_number country_key : string) (country_info : CountryPhoneInfo)
  : PhoneNumberInfo :=
  let calling_code := calling_digits country_info in
  let national_number :=
    if Py.startswith cleaned_number ("+" +:+ calling_code)
    then Py.drop (String.length calling_code + 1) cleaned_number
    else if Py.startswith cleaned_number calling_code
    then Py.drop (String.length calling_code) cleaned_number
    else cleaned_number in
  let national_prefix := cp_national_prefix country_info in
  let national_number :=
    if Py.truthy national_prefix && Py.startswith national_number national_prefix
    then Py.drop (String.length national_prefix) national_number
    else national_number in
  let is_valid := _validate_number_for_country national_number country_info in
  let phone_type := _determine_phone_type national_number country_info in
  let area_code := _extract_area_code national_number country_info in
  let formatted_number := _format_number national_number country_info "national" in
  let international_format :=
    _format_number national_number country_info "international" in
  {| raw_number := cleaned_number;
     formatted_number := formatted_number;
     international_format := international_format;
     country_code := cp_country_code country_info;
     national_number := national_number;
     area_code := area_code;
     is_valid := is_valid;
     phone_type := phone_type;
     country_name := cp_country_name country_info;
     timezone := _get_timezone_for_area_code area_code country_key |}.

(** Country resolution of [parse_phone_number]: detection, then the hint,
    then the United States.  A detected key is a key of the table, none of
    which is empty, so [not detected_country] holds only for [None]. *)
Definition resolve_country (cleaned_number : string) (country_hint : option string)
  : string :=
  let detected_country := _detect_country_from_number cleaned_number in
  let detected_country :=
    match detected_country with
    | Some k => Some k
    | None =>
        if Py.truthy_opt country_hint
        then _get_country_key_from_code (default "" country_hint)
        else None
    end in
  default "united_states" detected_country.

(** [None] stands for the [KeyError] of [self.phone_db[detected_country]]. *)
Definition parse_phone_number (phone_number : string) (country_hint : option string)
  : option PhoneNumberInfo :=
  let cleaned_number := _clean_phone_number phone_number in
  let detected_country := resolve_country cleaned_number country_hint in
  country_info ← Py.assoc detected_country phone_db;
  Some (_parse_for_country cleaned_number detected_country country_info).

(** [format_for_dialing] returns a [Dict[str, str]]: the literal's items
    in order. *)
Definition format_for_dialing (phone_info : PhoneNumberInfo) (calling_from_country : string)
  : list (string * string) :=
  match find_by_code calling_from_country phone_db with
  | None => [("error", "Unknown calling country: " +:+ calling_from_country)]
  | Some (_, calling_from_info) =>
      let international_prefix := cp_international_prefix calling_from_info in
      let target_calling_code :=
        (calling_digits ∘ snd) <$> find_by_code (country_code phone_info) phone_db in
      if negb (Py.truthy_opt target_calling_code)
      then [("error", "Unknown target country: " +:+ country_code phone_info)]
      else
        let target_calling_code := default "" target_calling_code in
        if String.eqb calling_from_country (country_code phone_info)
        then [("domestic", formatted_number phone_info);
              ("international", international_format phone_info);
              ("dial_string", national_number phone_info)]
        else
          let dial_string :=
            international_prefix +:+ target_calling_code
            +:+ national_number phone_info in
          [("international", international_format phone_info);
           ("dial_string", dial_string);
           ("instructions",
            "Dial " +:+ international_prefix +:+ " + " +:+ target_calling_code
            +:+ " + " +:+ national_number phone_info)]
  end.

(** ** Jurisdiction manager: data model *)

Record City := {
  city_postal : string * list string;
  city_population : N
}.

(** The postal hint of a state or city is kept with the key it is stored
    under ([zip_ranges], [postal_patterns], [plz_ranges], ...). *)
Record State := {
  st_name : string;
  st_code : string;
  st_capital : string;
  st_postal : string * list string;
  st_major_cities : list (string * City)
}.

Record Country := {
  j_country_name : string;
  j_country_code : string;
  j_legal_system : string;
  j_federal_system : bool;
  j_states : list (string * State)
}.

Definition city (k : string) (v : list string) (p : N) : City :=
  {| city_postal := (k, v); city_population := p |}.

Definition INTERNATIONAL_JURISDICTIONS : list (string * Country) :=
  [ ("united_states",
     {| j_country_name := "United States"; j_country_code := "US";
        j_legal_system := "common_law"; j_federal_system := true;
        j_states :=
          [ ("colorado",
             {| st_name := "Colorado"; st_code := "CO"; st_capital := "Denver";
                st_postal := ("zip_ranges", ["80001-81699"]);
                st_major_cities :=
                  [("denver", city "zip_ranges" ["80201-80299"] 715522);
                   ("colorado_springs", city "zip_ranges" ["80901-80951"] 478961)] |});
            ("california",
             {| st_name := "California"; st_code := "CA"; st_capital := "Sacramento";
                st_postal := ("zip_ranges", ["90001-96162"]);
                st_major_cities :=
                  [("los_angeles", city "zip_ranges" ["90001-90899"] 3898747);
                   ("san_francisco", city "zip_ranges" ["94101-94188"] 873965)] |});
            ("new_york",
             {| st_name := "New York"; st_code := "NY"; st_capital := "Albany";
                st_postal := ("zip_ranges", ["10001-14999"]);
                st_major_cities :=
                  [("new_york_city", city "zip_ranges" ["10001-10299"] 8336817)] |}) ] |});
    ("canada",
     {| j_country_name := "Canada"; j_country_code := "CA";
        j_legal_system := "common_law"; j_federal_system := true;
        j_states :=
          [ ("ontario",
             {| st_name := "Ontario"; st_code := "ON"; st_capital := "Toronto";
                st_postal := ("postal_patterns", ["K"; "L"; "M"; "N"; "P"]);
                st_major_cities :=
                  [("toronto", city "postal_prefixes" ["M"] 2794356);
                   ("ottawa", city "postal_prefixes" ["K1"; "K2"] 1017449)] |});
            ("british_columbia",
             {| st_name := "British Columbia"; st_code := "BC"; st_capital := "Victoria";
                st_postal := ("postal_patterns", ["V"]);
                st_major_cities :=
                  [("vancouver", city "postal_prefixes" ["V5"; "V6"] 631486)] |}) ] |});
    ("australia",
     {| j_country_name := "Australia"; j_country_code := "AU";
        j_legal_system := "common_law"; j_federal_system := true;
        j_states :=
          [ ("new_south_wales",
             {| st_name := "New South Wales"; st_code := "NSW"; st_capital := "Sydney";
                st_postal := ("postcode_ranges", ["1000-2999"]);
                st_major_cities :=
                  [("sydney", city "postcode_ranges" ["2000-2599"] 5312163)] |});
            ("victoria",
             {| st_name := "Victoria"; st_code := "VIC"; st_capital := "Melbourne";
                st_postal := ("postcode_ranges", ["3000-3999"]);
                st_major_cities :=
                  [("melbourne", city "postcode_ranges" ["3000-3207"] 5078193)] |}) ] |});
    ("united_kingdom",
     {| j_country_name := "United Kingdom"; j_country_code := "GB";
        j_legal_system := "common_law"; j_federal_system := false;
        j_states :=
          [ ("england",
             {| st_name := "England"; st_code := "ENG"; st_capital := "London";
                st_postal :=
                  ("postcode_areas", ["E"; "EC"; "N"; "NW"; "SE"; "SW"; "W"; "WC"]);
                st_major_cities :=
                  [("london",
                    city "postcode_areas" ["E"; "EC"; "N"; "NW"; "SE"; "SW"; "W"; "WC"]
                      9648110)] |});
            ("scotland",
             {| st_name := "Scotland"; st_code := "SCT"; st_capital := "Edinburgh";
                st_postal :=
                  ("postcode_areas",
                   ["AB"; "DD"; "DG"; "EH"; "FK"; "G"; "HS"; "IV"; "KA"; "KW"; "KY";
                    "ML"; "PA"; "PH"; "TD"; "ZE"]);
                st_major_cities :=
                  [("glasgow", city "postcode_areas" ["G"] 635640);
                   ("edinburgh", city "postcode_areas" ["EH"] 526470)] |}) ] |});
    ("germany",
     {| j_country_name := "Germany"; j_country_code := "DE";
        j_legal_system := "civil_law"; j_federal_system := true;
        j_states :=
          [ ("bavaria",
             {| st_name := "Bavaria"; st_code := "BY"; st_capital := "Munich";
                st_postal := ("plz_ranges", ["80000-87999"]);
                st_major_cities :=
                  [("munich", city "plz_ranges" ["80000-81999"] 1484226)] |});
            ("north_rhine_westphalia",
             {| st_name := "North Rhine-Westphalia"; st_code := "NW";
                st_capital := "D" +:+ ch 252 +:+ "sseldorf";
                st_postal := ("plz_ranges", ["40000-59999"]);
                st_major_cities :=
                  [("cologne", city "plz_ranges" ["50000-51999"] 1087863)] |}) ] |});
    ("france",
     {| j_country_name := "France"; j_country_code := "FR";
        j_legal_system := "civil_law"; j_federal_system := false;
        j_states :=
          [ ("ile_de_france",
             {| st_name := ch 206 +:+ "le-de-France"; st_code := "IDF";
                st_capital := "Paris";
                st_postal :=
                  ("postal_ranges", ["75001-75020"; "77000-77999"; "78000-78999"]);
                st_major_cities :=
                  [("paris", city "postal_ranges" ["75001-75020"] 2161000)] |}) ] |}) ].

Definition LEGAL_EQUIVALENCIES : list (string * list (string * list string)) :=
  [ ("employment_law",
     [ ("common_law",
        ["wrongful_termination"; "discrimination"; "harassment"; "whistleblower";
         "wage_theft"]);
       ("civil_law",
        ["employment_termination"; "workplace_discrimination"; "employee_protection";
         "salary_disputes"]) ]);
    ("civil_rights",
     [ ("common_law", ["discrimination"; "civil_liberties"; "constitutional_rights"]);
       ("civil_law", ["fundamental_rights"; "equality_rights"; "personal_rights"]) ]) ].

(** ** Jurisdiction manager: [InternationalJurisdictionManager] *)

(** The dicts appended by [search_jurisdictions], told apart by their
    ["type"] entry. *)
Inductive SearchResult :=
| CountryResult (key name code legal_system : string)
| StateResult (country_key country_name state_key state_name state_code
               capital legal_system : string).

Definition country_entry (country_key : string) (country_data : Country) : SearchResult :=
  CountryResult country_key (j_country_name country_data)
    (j_country_code country_data) (j_legal_system country_data).

Definition state_entry (country_key : string) (country_data : Country)
  (st : string * State) : SearchResult :=
  StateResult country_key (j_country_name country_data) st.1 (st_name st.2)
    (st_code st.2) (st_capital st.2) (j_legal_system country_data).

Section Search.
Variable jurisdictions : list (string * Country).

(** Inner loop: one pass over [country_data["states"].items()],
    appending to [results]. *)
Definition search_states (query_lower country_key : string) (country_data : Country)
  (results : list SearchResult) : list SearchResult :=
  fold_left
    (λ results (st : string * State),
       if Py.contains (Py.lower (st_name st.2)) query_lower
          || Py.contains (Py.lower (st_code st.2)) query_lower
          || Py.contains (Py.lower st.1) query_lower
       then results ++ [state_entry country_key country_data st]
       else results)
    (j_states country_data) results.

Definition search_jurisdictions_in (query : string) : list SearchResult :=
  let query_lower := Py.lower query in
  fold_left
    (λ results (c : string * Country),
       let '(country_key, country_data) := c in
       let results :=
         if Py.contains (Py.lower (j_country_name country_data)) query_lower
            || Py.contains (Py.lower (j_country_code country_data)) query_lower
         then results ++ [country_entry country_key country_data]
         else results in
       search_states query_lower country_key country_data results)
    jurisdictions [].
End Search.

Definition search_jurisdictions : string → list SearchResult :=
  search_jurisdictions_in INTERNATIONAL_JURISDICTIONS.

(** Inner loop of [find_equivalent_claim_types] over [systems.items()];
    the [break] ends it at the first system that passes the test. *)
Fixpoint equivalents_in_systems (claim_type target_legal_system : string)
  (systems : list (string * list string)) (equivalents : list string) : list string :=
  match systems with
  | [] => equivalents
  | (system, claims) :: rest =>
      if String.eqb system target_legal_system
         && Py.mem (Py.lower claim_type) (map Py.lower claims)
      then equivalents ++ claims
      else equivalents_in_systems claim_type target_legal_system rest equivalents
  end.

(** [list(set(equivalents))]: the order of the returned list is that of a
    Python set, so the result is kept as the set. *)
Definition find_equivalent_claim_types (claim_type target_legal_system : string)
  : gset string :=
  list_to_set
    (fold_left
       (λ equivalents (cat : string * list (string * list string)),
          equivalents_in_systems claim_type target_legal_system cat.2 equivalents)
       LEGAL_EQUIVALENCIES []).

(** The reading of the specification: the claim lists of the target system
    in every category where the list of some other system holds the queried
    claim type. *)
Definition equivalents_by_source (claim_type target_legal_system : string)
  : gset string :=
  list_to_set
    (flat_map
       (λ cat : string * list (string * list string),
          if existsb
               (λ sc : string * list string,
                  negb (String.eqb sc.1 target_legal_system)
                  && Py.mem (Py.lower claim_type) (map Py.lower sc.2))
               cat.2
          then default [] (Py.assoc target_legal_system cat.2)
          else [])
       LEGAL_EQUIVALENCIES).

(** *** Case loading

    A case is a JSON object whose values are strings.  A path of the file
    system is absent, or holds a file whose content either loads as a list
    of cases or makes [open], [json.load] or the scan raise. *)
Inductive FileContent :=
| CaseList (all_cases : list (gmap string string))
| Malformed.

Inductive Outcome (A : Type) :=
| Returned (a : A)
| Raised.
Arguments Returned {A} a.
Arguments Raised {A}.

Section CaseLoading.
Variable fs : string → option FileContent.

Definition path_exists (p : string) : bool := bool_decide (is_Some (fs p)).

(** [for alt_path in [...]: if Path(alt_path).exists(): ...; break] *)
Fixpoint first_existing (data_file : string) (alt_paths : list string) : string :=
  match alt_paths with
  | [] => data_file
  | alt_path :: rest =>
      if path_exists alt_path then alt_path else first_existing data_file rest
  end.

Definition locate_data_file : string :=
  let data_file := "data/client_cases.json" in
  if negb (path_exists data_file)
  then first_existing data_file ["../data/client_cases.json"; "client_cases.json"]
  else data_file.

(** The test applied to one case inside the loop. *)
Definition case_selected (country_key : string) (state_key : option string)
  (case : gmap string string) : bool :=
  let case_country := Py.lower (default "" (case !! "country")) in
  let case_state := Py.lower (default "" (case !! "state_province")) in
  let legacy_jurisdiction := Py.lower (default "" (case !! "jurisdiction")) in
  if String.eqb case_country (Py.lower country_key)
  then
    if Py.truthy_opt state_key
    then String.eqb case_state (Py.lower (default "" state_key))
    else true
  else
    if Py.truthy_opt state_key
    then String.eqb legacy_jurisdiction (Py.lower (default "" state_key))
    else false.

(** Body of the [try] block. *)
Definition load_cases_body (country_key : string) (state_key : option string)
  : Outcome (list (gmap string string)) :=
  let data_file := locate_data_file in
  match fs data_file with
  | None => Returned []
  | Some Malformed => Raised
  | Some (CaseList all_cases) =>
      Returned (List.filter (case_selected country_key state_key) all_cases)
  end.

(** [except Exception: ... return []] *)
Definition load_cases_by_jurisdiction (country_key : string) (state_key : option string)
  : list (gmap string string) :=
  match load_cases_body country_key state_key with
  | Returned cases => cases
  | Raised => []
  end.
End CaseLoading.

(** ** Phone system: lookups built on the parser *)

Definition get_emergency_numbers (country_code : string) : list (string * string) :=
  match find_by_code country_code phone_db with
  | Some (_, country_info) => cp_emergency_numbers country_info
  | None => [("error", "Emergency numbers not found for " +:+ country_code)]
  end.

(** [area_codes.get(area_code, "Unknown location")]; an absent area code is
    no key of the dict. *)
Definition _get_area_location (area_code : option string) (country_code : string)
  : string :=
  match find_by_code country_code phone_db with
  | Some (_, country_info) =>
      let area_codes := default ∅ (cp_area_codes country_info) in
      default "Unknown location" (ac ← area_code; area_codes !! ac)
  | None => "Unknown location"
  end.

(** The dict returned by [validate_client_phone], one field per key. *)
Record ClientPhoneValidation := {
  v_is_valid : bool;
  v_formatted_number : string;
  v_international_format : string;
  v_country : string;
  v_phone_type : string;
  v_area_location : string;
  v_timezone : string;
  v_emergency_numbers : list (string * string)
}.

(** The source's parameter [country_code] is named [country_hint] here,
    where [country_code] is the field of the parsed record. *)
Definition validate_client_phone (phone_number : string) (country_hint : option string)
  : option ClientPhoneValidation :=
  phone_info ← parse_phone_number phone_number country_hint;
  Some {| v_is_valid := is_valid phone_info;
          v_formatted_number := formatted_number phone_info;
          v_international_format := international_format phone_info;
          v_country := country_name phone_info;
          v_phone_type := phone_type phone_info;
          v_area_location :=
            _get_area_location (area_code phone_info) (country_code phone_info);
          v_timezone := timezone phone_info;
          v_emergency_numbers := get_emergency_numbers (country_code phone_info) |}.

(** ** Regular expressions of the postal patterns

    The patterns use character classes, literals, sequencing, [?] and
    bounded repetition, between [^] and [$].  [re.match] on such a pattern
    succeeds exactly when the pattern accepts the whole string, or all of it
    but a final newline, which [$] lets pass.  Acceptance is computed with
    derivatives. *)

Module Re.

Inductive t :=
| Void
| Eps
| Class (p : ascii → bool)
| Seq (r1 r2 : t)
| Alt (r1 r2 : t).

(** [r?], [r{n}], [r{m,n}], and a sequence of patterns *)
Definition opt (r : t) : t := Alt Eps r.

Fixpoint rep (n : nat) (r : t) : t :=
  match n with
  | O => Eps
  | S n' => Seq r (rep n' r)
  end.

Definition rep_range (m n : nat) (r : t) : t := Seq (rep m r) (rep (n - m) (opt r)).

Definition seq (rs : list t) : t := foldr Seq Eps rs.

(** [\d], [[A-Z]], [[A-Z\d]] and a literal character *)
Definition digit : t := Class Py.is_digit.
Definition upper : t := Class Py.is_upper.
Definition upper_or_digit : t := Class (λ c, Py.is_upper c || Py.is_digit c).
Definition lit (c : ascii) : t := Class (Ascii.eqb c).

Fixpoint nullable (r : t) : bool :=
  match r with
  | Void => false
  | Eps => true
  | Class _ => false
  | Seq r1 r2 => nullable r1 && nullable r2
  | Alt r1 r2 => nullable r1 || nullable r2
  end.

Fixpoint deriv (c : ascii) (r : t) : t :=
  match r with
  | Void => Void
  | Eps => Void
  | Class p => if p c then Eps else Void
  | Seq r1 r2 =>
      if nullable r1
      then Alt (Seq (deriv c r1) r2) (deriv c r2)
      else Seq (deriv c r1) r2
  | Alt r1 r2 => Alt (deriv c r1) (deriv c r2)
  end.

Fixpoint fullmatch (r : t) (s : string) : bool :=
  match s with
  | EmptyString => nullable r
  | String c s' => fullmatch (deriv c r) s'
  end.

(** [s] without its final newline, when it has one *)
Fixpoint chomp (s : string) : option string :=
  match s with
  | EmptyString => None
  | String c EmptyString => if Ascii.eqb c "010" then Some EmptyString else None
  | String c s' => String c <$> chomp s'
  end.

(** Truth value of [re.match(r'^...$', s)] for the pattern body [r] *)
Definition match_anchored (r : t) (s : string) : bool :=
  fullmatch r s
  || match chomp s with Some s' => fullmatch r s' | None => false end.

End Re.

(** ** Jurisdiction manager: lookups and postal codes *)

Definition get_country_info (country_key : string) : option Country :=
  Py.assoc (Py.lower country_key) INTERNATIONAL_JURISDICTIONS.

(** A country of the table is a non-empty dict with a [states] entry, so
    the test [country and "states" in country] is the test for [None]. *)
Definition get_state_info (country_key state_key : string) : option State :=
  country ← get_country_info country_key;
  Py.assoc (Py.lower state_key) (j_states country).

(** The [patterns] dict of [validate_postal_code], each pattern given by its
    body between [^] and [$]. *)
Definition postal_patterns : list (string * Re.t) :=
  [ (* ^\d{5}(-\d{4})?$ *)
    ("US", Re.seq [Re.rep 5 Re.digit;
                   Re.opt (Re.seq [Re.lit "-"; Re.rep 4 Re.digit])]);
    (* ^[A-Z]\d[A-Z] \d[A-Z]\d$ *)
    ("CA", Re.seq [Re.upper; Re.digit; Re.upper; Re.lit " ";
                   Re.digit; Re.upper; Re.digit]);
    (* ^\d{4}$ *)
    ("AU", Re.seq [Re.rep 4 Re.digit]);
    (* ^[A-Z]{1,2}\d[A-Z\d]? \d[A-Z]{2}$ *)
    ("GB", Re.seq [Re.rep_range 1 2 Re.upper; Re.digit; Re.opt Re.upper_or_digit;
                   Re.lit " "; Re.digit; Re.rep 2 Re.upper]);
    (* ^\d{5}$ *)
    ("DE", Re.seq [Re.rep 5 Re.digit]);
    (* ^\d{5}$ *)
    ("FR", Re.seq [Re.rep 5 Re.digit]) ].

Definition validate_postal_code (postal_code country_code : string) : bool * string :=
  match Py.assoc (Py.upper country_code) postal_patterns with
  | None => (false, "No validation pattern for country " +:+ country_code)
  | Some pattern =>
      if Re.match_anchored pattern (Py.strip postal_code)
      then (true, "Valid postal code format")
      else (false, "Invalid format for " +:+ country_code)
  end.

(** ** Communications module: its two tables *)

Definition SUPPORTED_PHONE_COUNTRIES : list string :=
  ["US"; "CA"; "AU"; "GB"; "DE"; "FR"; "BR"; "IN"; "JP"; "MX"].

Definition EMERGENCY_NUMBERS : list (string * string) :=
  [("US", "911"); ("CA", "911"); ("AU", "000"); ("GB", "999"); ("DE", "112");
   ("FR", "112"); ("BR", "190"); ("IN", "112"); ("JP", "110"); ("MX", "911")].

(** ** Vocabulary of the statements *)

(** A string of decimal digits. *)
Fixpoint digits_only (s : string) : bool :=
  match s with
  | EmptyString => true
  | String c s' => Py.is_digit c && digits_only s'
  end.

(** [key] is the first entry of [db], in iteration order, whose calling
    code is a prefix of [digits]. *)
Definition first_calling_code_match
  (db : list (string * CountryPhoneInfo)) (digits key : string) : Prop :=
  ∃ before info after,
    db = before ++ (key, info) :: after
    ∧ Py.startswith digits (calling_digits info) = true
    ∧ ∀ e, e ∈ before → Py.startswith digits (calling_digits e.2) = false.

(** The country taken from the hint, the United States when the hint is
    missing, empty or maps to no entry. *)
Definition hint_or_default (country_hint : option string) : string :=
  match country_hint with
  | Some h => default "united_states" (_get_country_key_from_code h)
  | None => "united_states"
  end.

(** A prefix length that yields a candidate of [national_number], the
    candidate being a key of [keys]. *)
Definition area_candidate (keys : gmap string string) (national_number : string)
  (len : nat) : Prop :=
  len ≤ String.length national_number
  ∧ is_Some (keys !! Py.take len national_number).

(** A profile whose area-code map holds a two-digit key and a three-digit
    key that extends it. *)
Definition overlap_fixture : CountryPhoneInfo :=
  {| cp_country_code := "ZZ"; cp_calling_code := "+999";
     cp_country_name := "Fixture"; cp_phone_formats := [];
     cp_national_prefix := "0"; cp_international_prefix := "00";
     cp_mobile_prefixes := []; cp_emergency_numbers := [];
     cp_area_codes := Some (list_to_map [("123", "long"); ("12", "short")]) |}.

(** The entry of the area-code override table for a country and an area
    code, if both are there. *)
Definition timezone_override (area_code : option string) (country_key : string)
  : option string :=
  by_area ← Py.assoc country_key timezone_mapping;
  ac ← area_code;
  by_area !! ac.

(** A returned dict that signals an error. *)
Definition is_error (d : list (string * string)) : Prop :=
  is_Some (Py.assoc "error" d).

(** One country entry per country, each followed by one state entry per
    state of that country, in table order. *)
Definition all_entries (jurisdictions : list (string * Country)) : list SearchResult :=
  flat_map
    (λ c : string * Country,
       country_entry c.1 c.2 :: map (state_entry c.1 c.2) (j_states c.2))
    jurisdictions.

(** The fixed search order of the case file. *)
Definition case_file_paths : list string :=
  ["data/client_cases.json"; "../data/client_cases.json"; "client_cases.json"].

(** [p] is the first path of the search order that exists in [fs]. *)
Definition first_case_file (fs : string → option FileContent) (p : string) : Prop :=
  ∃ before after,
    case_file_paths = before ++ p :: after
    ∧ is_Some (fs p)
    ∧ ∀ q, q ∈ before → fs q = None.

(** [case.get(k, '')] *)
Definition field (case : gmap string string) (k : string) : string :=
  default "" (case !! k).

(** Case-insensitive equality. *)
Definition same_text (a b : string) : Prop := Py.lower a = Py.lower b.

(** The state of a query, when one is given: absent and empty both count
    as not given. *)
Definition state_given (state_key : option string) : option string :=
  match state_key with
  | Some s => if String.eqb s "" then None else Some s
  | None => None
  end.

(** Match on the modern fields. *)
Definition modern_match (country_key : string) (state_key : option string)
  (case : gmap string string) : Prop :=
  same_text (field case "country") country_key
  ∧ match state_given state_key with
    | Some s => same_text (field case "state_province") s
    | None => True
    end.

(** Match on the legacy field. *)
Definition legacy_match (state_key : option string) (case : gmap string string) : Prop :=
  match state_given state_key with
  | Some s => same_text (field case "jurisdiction") s
  | None => False
  end.

(** Sample cases and a file system that holds them at the first path. *)
Definition modern_colorado_case : gmap string string :=
  {[ "case_id" := "A-1"; "country" := "united_states";
     "state_province" := "colorado" ]}.

Definition legacy_colorado_case : gmap string string :=
  {[ "case_id" := "A-2"; "jurisdiction" := "colorado" ]}.

Definition california_case : gmap string string :=
  {[ "case_id" := "A-3"; "country" := "united_states";
     "state_province" := "california" ]}.

Definition hybrid_case : gmap string string :=
  {[ "case_id" := "A-4"; "country" := "united_states";
     "jurisdiction" := "colorado" ]}.

Definition sample_fs (all_cases : list (gmap string string))
  : string → option FileContent :=
  λ p, if String.eqb p "data/client_cases.json" then Some (CaseList all_cases)
       else None.

(** The queried claim type is an entry of [claims], letter case aside. *)
Definition listed (claim_type : string) (claims : list string) : Prop :=
  Py.mem (Py.lower claim_type) (map Py.lower claims) = true.

(** The strings a pattern accepts. *)
Inductive accepts : Re.t → string → Prop :=
| accepts_eps : accepts Re.Eps ""
| accepts_class p c : p c = true → accepts (Re.Class p) (String c "")
| accepts_seq r1 r2 s1 s2 :
    accepts r1 s1 → accepts r2 s2 → accepts (Re.Seq r1 r2) (s1 +:+ s2)
| accepts_alt_l r1 r2 s : accepts r1 s → accepts (Re.Alt r1 r2) s
| accepts_alt_r r1 r2 s : accepts r2 s → accepts (Re.Alt r1 r2) s.

(** [s] has one character per class of the list, each in its class. *)
Fixpoint fits (classes : list (ascii → bool)) (s : string) : bool :=
  match classes, s with
  | [], EmptyString => true
  | p :: classes', String c s' => p c && fits classes' s'
  | _, _ => false
  end.

(** The class lists of a pattern: one per way through its alternatives. *)
Fixpoint expand (r : Re.t) : list (list (ascii → bool)) :=
  match r with
  | Re.Void => []
  | Re.Eps => [[]]
  | Re.Class p => [[p]]
  | Re.Seq r1 r2 => x ← expand r1; y ← expand r2; [x ++ y]
  | Re.Alt r1 r2 => expand r1 ++ expand r2
  end.

(** A template spells a class list: 9 is a digit, A a capital letter, X a
    capital letter or a digit, any other character itself. *)
Definition template_class (c : ascii) : ascii → bool :=
  if Ascii.eqb c "9" then Py.is_digit
  else if Ascii.eqb c "A" then Py.is_upper
  else if Ascii.eqb c "X" then (λ c, Py.is_upper c || Py.is_digit c)
  else Ascii.eqb c.

Fixpoint template (t : string) : list (ascii → bool) :=
  match t with
  | EmptyString => []
  | String c t' => template_class c :: template t'
  end.

Definition postal_templates : list (string * list string) :=
  [ ("US", ["99999"; "99999-9999"]);
    ("CA", ["A9A 9A9"]);
    ("AU", ["9999"]);
    ("GB", ["A9 9AA"; "A9X 9AA"; "AA9 9AA"; "AA9X 9AA"]);
    ("DE", ["99999"]);
    ("FR", ["99999"]) ].

(** Equality of search results is decidable. *)
#[global] Instance SearchResult_eq_dec : EqDecision SearchResult.
Proof. solve_decision. Defined.

(** The tests of [search_jurisdictions] on a country and on a state. *)
Definition country_matches (query : string) (country_data : Country) : Prop :=
  Py.contains (Py.lower (j_country_name country_data)) (Py.lower query) = true
  ∨ Py.contains (Py.lower (j_country_code country_data)) (Py.lower query) = true.

Definition state_matches (query : string) (st : string * State) : Prop :=
  Py.contains (Py.lower (st_name st.2)) (Py.lower query) = true
  ∨ Py.contains (Py.lower (st_code st.2)) (Py.lower query) = true
  ∨ Py.contains (Py.lower st.1) (Py.lower query) = true.

(** The entries one country contributes to a search: its own entry if it
    matches, then the entries of its states that match, in order. *)
Definition found_in (query : string) (c : string * Country) : list SearchResult :=
  (if Py.contains (Py.lower (j_country_name c.2)) (Py.lower query)
      || Py.contains (Py.lower (j_country_code c.2)) (Py.lower query)
   then [country_entry c.1 c.2] else [])
  ++ map (state_entry c.1 c.2)
       (List.filter
          (λ st : string * State,
             Py.contains (Py.lower (st_name st.2)) (Py.lower query)
             || Py.contains (Py.lower (st_code st.2)) (Py.lower query)
             || Py.contains (Py.lower st.1) (Py.lower query))
          (j_states c.2)).

(** ** Properties *)

(** *** Strings *)

Section StringFacts.
Implicit Types (s t p : string) (c : ascii) (k : nat).

Lemma app_cons c s t : String c s +:+ t = String c (s +:+ t).
Proof. reflexivity. Qed.

Lemma app_empty_l s : "" +:+ s = s.
Proof. reflexivity. Qed.

Lemma filter_app f s t : Py.filter f (s +:+ t) = Py.filter f s +:+ Py.filter f t.
Proof.
  induction s as [|c s IH]; [reflexivity|].
  rewrite app_cons. cbn [Py.filter]. rewrite IH.
  destruct (f c); reflexivity.
Qed.

Lemma filter_digits_id s : digits_only s = true → Py.filter Py.is_digit s = s.
Proof.
  induction s as [|c s IH]; [reflexivity|].
  cbn [digits_only Py.filter]. intros [Hc Hs]%andb_prop.
  rewrite Hc, IH; auto.
Qed.

Lemma take_drop k s : Py.take k s +:+ Py.drop k s = s.
Proof.
  revert s. induction k as [|k IH]; intros [|c s]; try reflexivity.
  cbn [Py.take Py.drop]. rewrite app_cons, IH. reflexivity.
Qed.

Lemma drop_drop i j s : Py.drop j (Py.drop i s) = Py.drop (i + j) s.
Proof.
  revert s. induction i as [|i IH]; intros s.
  - destruct s; reflexivity.
  - destruct s as [|c s]; [destruct j; reflexivity|]. apply IH.
Qed.

Lemma slice_drop a b s : a ≤ b → Py.slice a b s +:+ Py.drop b s = Py.drop a s.
Proof.
  intros Hab. unfold Py.slice.
  replace (Py.drop b s) with (Py.drop (b - a) (Py.drop a s)).
  - apply take_drop.
  - rewrite drop_drop. f_equal. lia.
Qed.

Lemma digits_only_take k s : digits_only s = true → digits_only (Py.take k s) = true.
Proof.
  revert s. induction k as [|k IH]; intros [|c s] H; try reflexivity.
  cbn [digits_only Py.take] in *. apply andb_prop in H as [Hc Hs].
  rewrite Hc. cbn. auto.
Qed.

Lemma digits_only_drop k s : digits_only s = true → digits_only (Py.drop k s) = true.
Proof.
  revert s. induction k as [|k IH]; intros [|c s]; try (intros; assumption).
  cbn [digits_only Py.drop]. intros [Hc Hs]%andb_prop. auto.
Qed.

Lemma digits_only_slice a b s :
  digits_only s = true → digits_only (Py.slice a b s) = true.
Proof. intros. unfold Py.slice. auto using digits_only_take, digits_only_drop. Qed.

Lemma digit_not_plus c : Py.is_digit c = true → Ascii.eqb "+" c = false.
Proof. destruct c as [[] [] [] [] [] [] [] []]; cbv; congruence. Qed.

Lemma length_drop k s : String.length (Py.drop k s) = String.length s - k.
Proof.
  revert s. induction k as [|k IH]; intros [|c s]; cbn; auto with lia.
Qed.

Lemma startswith_length s p : Py.startswith s p = true → String.length p ≤ String.length s.
Proof.
  revert s. induction p as [|a p IH]; intros [|b s]; cbn; try lia; try discriminate.
  intros [_ H]%andb_prop. apply IH in H. lia.
Qed.

Lemma startswith_take s p :
  Py.startswith s p = true ↔ Py.take (String.length p) s = p
                              ∧ String.length p ≤ String.length s.
Proof.
  revert s. induction p as [|a p IH]; intros [|b s]; cbn.
  - split; auto.
  - split; auto with lia.
  - split; [discriminate | intros [? ?]; lia].
  - rewrite andb_true_iff, IH. split.
    + intros [Hab [-> Hl]]. apply Ascii.eqb_eq in Hab as ->. split; auto with lia.
    + intros [Heq Hl]. injection Heq as -> Hp. rewrite Ascii.eqb_refl.
      split; [reflexivity|]. split; [assumption | lia].
Qed.

Lemma take_startswith k s : k ≤ String.length s → Py.startswith s (Py.take k s) = true.
Proof.
  revert s. induction k as [|k IH]; intros [|c s]; cbn; try reflexivity; try lia.
  intros H. rewrite Ascii.eqb_refl. apply IH. lia.
Qed.

Lemma length_take k s : k ≤ String.length s → String.length (Py.take k s) = k.
Proof.
  revert s. induction k as [|k IH]; intros [|c s]; cbn; try reflexivity; try lia.
  intros H. rewrite IH; lia.
Qed.

Lemma contains_empty s : Py.contains s "" = true.
Proof. destruct s; reflexivity. Qed.
End StringFacts.


(** *** Formatting and re-parsing *)

Section RoundTrip.
Variables (info : CountryPhoneInfo) (n : string).
Hypothesis digits : digits_only n = true.

Lemma strip_take k : Py.filter Py.is_digit (Py.take k n) = Py.take k n.
Proof. auto using filter_digits_id, digits_only_take. Qed.

Lemma strip_drop k : Py.filter Py.is_digit (Py.drop k n) = Py.drop k n.
Proof. auto using filter_digits_id, digits_only_drop. Qed.

Lemma strip_slice a b : Py.filter Py.is_digit (Py.slice a b n) = Py.slice a b n.
Proof. auto using filter_digits_id, digits_only_slice. Qed.

(** Every grouping rule only inserts separators: stripping them gives the
    digits back, whatever the profile and the length. *)
Lemma strip_apply_formatting :
  Py.strip_non_digits (_apply_formatting n info) = n.
Proof.
  unfold Py.strip_non_digits, _apply_formatting.
  repeat match goal with |- context [if ?b then _ else _] => destruct b end;
    rewrite ?filter_app, ?strip_take, ?strip_drop, ?strip_slice;
    cbn [Py.filter Py.is_digit]; rewrite ?app_empty_l;
    rewrite ?slice_drop by lia; rewrite ?take_drop;
    auto using filter_digits_id.
Qed.

Lemma apply_formatting_no_plus :
  n ≠ "" → Py.startswith (_apply_formatting n info) "+" = false.
Proof.
  destruct n as [|d n'] eqn:E; [congruence|]. intros _.
  cbn [digits_only] in digits. apply andb_prop in digits as [Hd _].
  apply digit_not_plus in Hd.
  unfold _apply_formatting.
  repeat match goal with |- context [if ?b then _ else _] => destruct b end;
    cbn [Py.take]; rewrite ?app_cons; cbn [Py.startswith];
    rewrite ?Hd; reflexivity.
Qed.

Lemma clean_apply_formatting :
  n ≠ "" → _clean_phone_number (_apply_formatting n info) = n.
Proof.
  intros Hn. unfold _clean_phone_number.
  rewrite apply_formatting_no_plus by assumption.
  apply strip_apply_formatting.
Qed.

Lemma validate_length :
  _validate_number_for_country n info = true → 7 ≤ String.length n.
Proof.
  unfold _validate_number_for_country.
  repeat match goal with |- context [if ?b then _ else _] => destruct b end;
    rewrite ?andb_true_iff, ?Nat.eqb_eq, ?Nat.leb_le; lia.
Qed.

Lemma detect_none_on_digits :
  n ≠ "" → _detect_country_from_number n = None.
Proof.
  destruct n as [|d n'] eqn:E; [congruence|]. intros _.
  cbn [digits_only] in digits. apply andb_prop in digits as [Hd _].
  unfold _detect_country_from_number. cbn [Py.startswith].
  rewrite (digit_not_plus _ Hd). reflexivity.
Qed.

(** Neither stripping step fires on a digit string that starts with
    neither the calling code nor the national prefix. *)
Lemma parse_for_country_unstripped key :
  n ≠ "" →
  Py.startswith n (calling_digits info) = false →
  Py.startswith n (cp_national_prefix info) = false →
  national_number (_parse_for_country n key info) = n
  ∧ is_valid (_parse_for_country n key info) = _validate_number_for_country n info.
Proof.
  intros Hn Hcc Hnp.
  assert (Hplus : Py.startswith n ("+" +:+ calling_digits info) = false).
  { destruct n as [|d n'] eqn:E; [congruence|].
    cbn [digits_only] in digits. apply andb_prop in digits as [Hd _].
    rewrite app_cons. cbn [Py.startswith].
    rewrite (digit_not_plus _ Hd). reflexivity. }
  unfold _parse_for_country. cbn [national_number is_valid].
  rewrite Hplus, Hcc, Hnp, andb_false_r. auto.
Qed.
End RoundTrip.

Lemma format_number_national n info :
  _format_number n info "national" = _apply_formatting n info.
Proof. reflexivity. Qed.

(** Every key and ISO code of the table leads back to its own entry, and
    no entry has an empty code, calling code or national prefix. *)
Lemma phone_db_entries key info :
  In (key, info) phone_db →
  Py.assoc key phone_db = Some info
  ∧ _get_country_key_from_code (cp_country_code info) = Some key
  ∧ find_by_code (cp_country_code info) phone_db = Some (key, info)
  ∧ Py.truthy (cp_country_code info) = true
  ∧ Py.truthy (calling_digits info) = true
  ∧ Py.truthy (cp_national_prefix info) = true.
Proof.
  intros Hin. unfold phone_db, INTERNATIONAL_PHONE_DATABASE in Hin.
  repeat (destruct Hin as [Hin | Hin];
          [injection Hin as <- <-; repeat split; vm_compute; reflexivity|]).
  destruct Hin.
Qed.

(** Parsing the national rendering of a digit string with the profile's
    own code as hint runs [_parse_for_country] on the digit string and that
    profile. *)
Lemma reparse_formatted key info n :
  In (key, info) phone_db →
  digits_only n = true →
  n ≠ "" →
  parse_phone_number (_format_number n info "national")
    (Some (cp_country_code info))
  = Some (_parse_for_country n key info).
Proof.
  intros Hin Hd Hn.
  destruct (phone_db_entries key info Hin) as (Hdb & Hkey & _ & Hcode & _).
  unfold parse_phone_number. rewrite format_number_national.
  rewrite clean_apply_formatting by assumption.
  unfold resolve_country. rewrite detect_none_on_digits by assumption.
  cbn [Py.truthy_opt from_option id]. rewrite Hcode.
  cbn [from_option id]. rewrite Hkey. cbn [from_option id].
  rewrite Hdb. reflexivity.
Qed.

Lemma truthy_length s : Py.truthy s = true → 0 < String.length s.
Proof. destruct s; cbn; [discriminate | lia]. Qed.

(** The two conditions of the round trip are needed: a number that starts
    with the calling code or with the national prefix comes back shorter. *)
Lemma reparse_strips_prefix key info n :
  In (key, info) phone_db →
  digits_only n = true →
  Py.startswith n (calling_digits info) = true
  ∨ Py.startswith n (cp_national_prefix info) = true →
  String.length (national_number (_parse_for_country n key info))
  < String.length n.
Proof.
  intros Hin Hd Hpre.
  destruct (phone_db_entries key info Hin) as (_ & _ & _ & _ & Hcc & Hnp).
  apply truthy_length in Hcc. pose proof (truthy_length _ Hnp) as Hnpl.
  unfold _parse_for_country. cbn [national_number]. rewrite Hnp. cbn [andb].
  destruct (Py.startswith n ("+" +:+ calling_digits info)) eqn:Eplus.
  { destruct n as [|d n']; [discriminate Eplus|].
    cbn [digits_only] in Hd. apply andb_prop in Hd as [Hd _].
    rewrite app_cons in Eplus. cbn [Py.startswith] in Eplus.
    rewrite (digit_not_plus _ Hd) in Eplus. discriminate Eplus. }
  destruct (Py.startswith n (calling_digits info)) eqn:Ecc.
  - apply startswith_length in Ecc.
    destruct (Py.startswith (Py.drop _ n) _); rewrite !length_drop; lia.
  - destruct Hpre as [?|Hpre]; [discriminate|]. rewrite Hpre.
    apply startswith_length in Hpre. rewrite length_drop. lia.
Qed.

(** C1, as amended.  For every profile of the table and every national
    number that is a string of digits, passes the profile's length rule and
    starts neither with the digits of the profile's calling code nor with its
    national prefix: rendering it in national format and parsing the
    rendering with the profile's ISO code as hint gives back the same
    national number, valid. *)
Theorem roundtrip_national_number key info n :
  In (key, info) phone_db →
  digits_only n = true →
  _validate_number_for_country n info = true →
  Py.startswith n (calling_digits info) = false →
  Py.startswith n (cp_national_prefix info) = false →
  ∃ p, parse_phone_number (_format_number n info "national")
         (Some (cp_country_code info)) = Some p
       ∧ national_number p = n ∧ is_valid p = true.
Proof.
  intros Hin Hd Hv Hcc Hnp.
  assert (Hn : n ≠ "").
  { apply validate_length in Hv. intros ->. cbn in Hv. lia. }
  exists (_parse_for_country n key info).
  destruct (parse_for_country_unstripped info n Hd key Hn Hcc Hnp) as [Hnat Hval].
  split; [by apply reparse_formatted|]. split; congruence.
Qed.

Lemma roundtrip_national_number_witness :
  ∃ p, parse_phone_number "(303) 555-0123" (Some "US") = Some p
       ∧ national_number p = "3035550123" ∧ is_valid p = true.
Proof.
  exact (roundtrip_national_number "united_states" _ "3035550123"
           (or_introl eq_refl) eq_refl eq_refl eq_refl eq_refl).
Defined.

(** C1 as stated fails: the United States number 1234567890 has ten digits,
    is rendered (123) 456-7890, and re-parsed with hint US loses its leading
    1 to the calling-code test, leaving nine digits, invalid. *)
Lemma roundtrip_fails_on_calling_code_prefix :
  ¬ (∀ key info n,
       In (key, info) phone_db →
       digits_only n = true →
       _validate_number_for_country n info = true →
       ∃ p, parse_phone_number (_format_number n info "national")
              (Some (cp_country_code info)) = Some p
            ∧ national_number p = n ∧ is_valid p = true).
Proof.
  intros H.
  destruct (H "united_states" _ "1234567890" (or_introl eq_refl) eq_refl eq_refl)
    as (p & Hp & Hn & Hv).
  vm_compute in Hp. injection Hp as <-. discriminate Hv.
Qed.


(** *** Country resolution *)

Section Tables.
Context {V : Type}.
Implicit Types (d : list (string * V)).

Lemma assoc_Some_In k d v : Py.assoc k d = Some v → In (k, v) d.
Proof.
  induction d as [|[k' v'] d IH]; cbn; [discriminate|].
  destruct (String.eqb k' k) eqn:E.
  - apply String.eqb_eq in E as ->. intros [= ->]. auto.
  - auto.
Qed.

Lemma In_assoc_is_Some k d v : In (k, v) d → is_Some (Py.assoc k d).
Proof.
  induction d as [|[k' v'] d IH]; cbn; [tauto|].
  intros [[= -> ->]|Hin].
  - rewrite String.eqb_refl. eauto.
  - destruct (String.eqb k' k); eauto.
Qed.
End Tables.

Lemma detect_loop_first_match db digits key :
  detect_loop digits db = Some key ↔ first_calling_code_match db digits key.
Proof.
  unfold first_calling_code_match. induction db as [|[k i] db IH]; cbn [detect_loop].
  - split; [discriminate|]. intros (before & info & after & H & _).
    destruct before; discriminate H.
  - destruct (Py.startswith digits (calling_digits i)) eqn:E.
    + split.
      * intros [= ->]. exists [], i, db. repeat split; auto.
        intros e He. inversion He.
      * intros ([|e before] & info & after & Hdb & Hp & Hnone).
        -- injection Hdb as -> -> ->. reflexivity.
        -- injection Hdb as <- ->.
           specialize (Hnone (k, i) (list_elem_of_here _ _)). cbn in Hnone. congruence.
    + rewrite IH. split.
      * intros (before & info & after & -> & Hp & Hnone).
        exists ((k, i) :: before), info, after. repeat split; auto.
        intros e [->|He]%elem_of_cons; auto.
      * intros ([|e before] & info & after & Hdb & Hp & Hnone).
        -- injection Hdb as -> -> ->. congruence.
        -- injection Hdb as <- ->. exists before, info, after.
           repeat split; auto. intros e' He'. apply Hnone. by apply list_elem_of_further.
Qed.

Lemma detect_loop_In db digits key :
  detect_loop digits db = Some key → ∃ info, In (key, info) db.
Proof.
  intros (before & info & after & -> & _)%detect_loop_first_match.
  exists info. apply in_or_app. right. left. reflexivity.
Qed.

Lemma find_by_code_In code db key info :
  find_by_code code db = Some (key, info) →
  In (key, info) db ∧ cp_country_code info = code.
Proof.
  induction db as [|[k i] db IH]; cbn; [discriminate|].
  destruct (String.eqb (cp_country_code i) code) eqn:E.
  - intros [= -> ->]. apply String.eqb_eq in E. auto.
  - intros H. apply IH in H as [? ?]. auto.
Qed.

Lemma detect_country_In cleaned key :
  _detect_country_from_number cleaned = Some key → ∃ info, In (key, info) phone_db.
Proof.
  unfold _detect_country_from_number. destruct (negb _); [discriminate|].
  apply detect_loop_In.
Qed.

Lemma get_country_key_In code key :
  _get_country_key_from_code code = Some key → ∃ info, In (key, info) phone_db.
Proof.
  unfold _get_country_key_from_code.
  destruct (find_by_code _ _) as [[k i]|] eqn:F; [|discriminate].
  intros [= <-]. apply find_by_code_In in F as [? _]. eauto.
Qed.

Lemma resolve_country_In cleaned hint :
  ∃ info, In (resolve_country cleaned hint, info) phone_db.
Proof.
  assert (∃ info, In ("united_states", info) phone_db) as Hus
    by (eexists; left; reflexivity).
  unfold resolve_country.
  destruct (_detect_country_from_number cleaned) as [k|] eqn:D.
  { exact (detect_country_In _ _ D). }
  destruct (Py.truthy_opt hint); [|exact Hus].
  destruct (_get_country_key_from_code _) as [k|] eqn:G; [|exact Hus].
  exact (get_country_key_In _ _ G).
Qed.

(** [parse_phone_number] never meets the [KeyError]: the resolved key is a
    key of the table. *)
Lemma parse_phone_number_total phone_number country_hint :
  let cleaned := _clean_phone_number phone_number in
  let key := resolve_country cleaned country_hint in
  ∃ info, In (key, info) phone_db
          ∧ Py.assoc key phone_db = Some info
          ∧ parse_phone_number phone_number country_hint
            = Some (_parse_for_country cleaned key info).
Proof.
  intros cleaned key. destruct (resolve_country_In cleaned country_hint) as [i Hi].
  fold key in Hi. destruct (In_assoc_is_Some _ _ _ Hi) as [info Hinfo].
  exists info. split; [by apply assoc_Some_In|]. split; [done|].
  unfold parse_phone_number. fold cleaned. fold key. rewrite Hinfo. reflexivity.
Qed.

Lemma startswith_plus_one s :
  Py.startswith s "+1" = true →
  Py.startswith s "+" = true ∧ Py.startswith (Py.drop 1 s) "1" = true.
Proof.
  destruct s as [|a [|b s]]; cbn; try discriminate.
  - rewrite andb_false_r. discriminate.
  - intros [-> H]%andb_prop. auto.
Qed.

(** C3, as amended.  The parse always finds its profile.  When the cleaned
    form starts with + and some entry's calling code is a prefix of the
    digits after it, the country is the first such entry in table order,
    whatever the hint; so every +1 input resolves to the United States.
    When the cleaned form does not start with +, or starts with + and no
    calling code of the table is a prefix of its digits, the hint decides
    if it maps to an entry, and the United States is taken otherwise. *)
Theorem country_resolution phone_number country_hint :
  let cleaned := _clean_phone_number phone_number in
  let key := resolve_country cleaned country_hint in
  (∃ info, Py.assoc key phone_db = Some info
           ∧ parse_phone_number phone_number country_hint
             = Some (_parse_for_country cleaned key info))
  ∧ (∀ k, Py.startswith cleaned "+" = true →
          first_calling_code_match phone_db (Py.drop 1 cleaned) k → key = k)
  ∧ (Py.startswith cleaned "+1" = true → key = "united_states")
  ∧ (Py.startswith cleaned "+" = false
     ∨ (∀ k, ¬ first_calling_code_match phone_db (Py.drop 1 cleaned) k) →
     key = hint_or_default country_hint).
Proof.
  intros cleaned key. split; [|split; [|split]].
  - destruct (parse_phone_number_total phone_number country_hint) as (i & _ & ? & ?).
    eauto.
  - intros k Hplus Hk%detect_loop_first_match. subst key.
    unfold resolve_country, _detect_country_from_number.
    rewrite Hplus. cbn [negb]. rewrite Hk. reflexivity.
  - intros [Hplus H1]%startswith_plus_one. subst key.
    unfold resolve_country, _detect_country_from_number.
    rewrite Hplus. cbn [negb]. unfold phone_db, INTERNATIONAL_PHONE_DATABASE.
    cbn [detect_loop]. 
    change (calling_digits _) with "1" at 1. rewrite H1. reflexivity.
  - intros Hno. subst key.
    assert (_detect_country_from_number cleaned = None) as Hd.
    { unfold _detect_country_from_number. destruct Hno as [-> | Hno]; [reflexivity|].
      destruct (negb _); [reflexivity|].
      destruct (detect_loop _ _) as [k|] eqn:E; [|reflexivity].
      apply detect_loop_first_match in E. destruct (Hno k E). }
    unfold resolve_country. rewrite Hd. unfold hint_or_default.
    destruct country_hint as [h|]; cbn [Py.truthy_opt from_option id]; [|reflexivity].
    unfold Py.truthy. destruct (String.eqb h "") eqn:E; [|reflexivity].
    apply String.eqb_eq in E as ->. reflexivity.
Qed.

(** C3 as stated fails on +7 495 123 4567: the cleaned form starts with +,
    no calling code of the table is a prefix of 74951234567, and the country
    follows the hint (GB gives the United Kingdom, FR gives France). *)
Lemma hint_consulted_when_no_calling_code_matches :
  let cleaned := _clean_phone_number "+7 495 123 4567" in
  Py.startswith cleaned "+" = true
  ∧ resolve_country cleaned (Some "GB") = "united_kingdom"
  ∧ resolve_country cleaned (Some "FR") = "france"
  ∧ ¬ first_calling_code_match phone_db (Py.drop 1 cleaned) "united_kingdom".
Proof.
  cbv zeta. repeat split; try (vm_compute; reflexivity).
  intros H%detect_loop_first_match. vm_compute in H. discriminate H.
Qed.


(** *** Area codes *)

Section AreaCode.
Variables (keys : gmap string string) (n : string).

Lemma extract_test_iff len :
  (len <=? String.length n) && bool_decide (is_Some (keys !! Py.take len n)) = true
  ↔ area_candidate keys n len.
Proof.
  unfold area_candidate. rewrite andb_true_iff, Nat.leb_le, bool_decide_eq_true. tauto.
Qed.

(** The loop returns the candidate of the first length of its list that
    passes the test. *)
Lemma extract_loop_Some lengths c :
  extract_loop keys n lengths = Some c ↔
  ∃ before len after,
    lengths = before ++ len :: after ∧ area_candidate keys n len ∧ c = Py.take len n
    ∧ ∀ len', len' ∈ before → ¬ area_candidate keys n len'.
Proof.
  induction lengths as [|l lengths IH]; cbn [extract_loop].
  - split; [discriminate|]. intros ([|??] & ? & ? & ? & _); discriminate.
  - destruct (_ && _) eqn:E.
    + apply extract_test_iff in E. split.
      * intros [= <-]. exists [], l, lengths. repeat split; try apply E.
        intros ? H. inversion H.
      * intros ([|l' before] & len & after & Hl & Hk & -> & Hmin).
        -- injection Hl as -> ->. reflexivity.
        -- injection Hl as <- ->. destruct (Hmin l); [left | exact E].
    + assert (¬ area_candidate keys n l) as Hl.
      { rewrite <- extract_test_iff, E. discriminate. }
      rewrite IH. split.
      * intros (before & len & after & -> & Hk & -> & Hmin).
        exists (l :: before), len, after. repeat split; try apply Hk.
        intros len' [->|?]%elem_of_cons; auto.
      * intros ([|l' before] & len & after & Heq & Hk & -> & Hmin).
        -- injection Heq as -> ->. contradiction.
        -- injection Heq as <- ->. exists before, len, after.
           repeat split; try apply Hk. intros len' ?. apply Hmin. by right.
Qed.

Lemma extract_loop_None lengths :
  extract_loop keys n lengths = None ↔ ∀ len, len ∈ lengths → ¬ area_candidate keys n len.
Proof.
  induction lengths as [|l lengths IH]; cbn [extract_loop].
  - split; [|reflexivity]. intros _ len H. inversion H.
  - destruct (_ && _) eqn:E.
    + apply extract_test_iff in E. split; [discriminate|].
      intros H. destruct (H l); [left | exact E].
    + assert (¬ area_candidate keys n l) as Hl.
      { rewrite <- extract_test_iff, E. discriminate. }
      rewrite IH. split.
      * intros H len [->|?]%elem_of_cons; auto.
      * intros H len ?. apply H. by right.
Qed.
End AreaCode.

Lemma lengths_before (before after : list nat) (len len' : nat) :
  [2; 3; 4; 5] = before ++ len :: after →
  len' ∈ [2; 3; 4; 5] → len' < len → len' ∈ before.
Proof.
  intros Hl Hin Hlt.
  destruct before as [|b0 [|b1 [|b2 [|b3 before]]]]; simplify_eq/=;
    set_unfold; lia.
Qed.

(** C5.  For every profile and national number, the extracted area code is
    the candidate prefix of the least length among 2, 3, 4, 5 that the
    number is long enough for and that is a key of the profile's area-code
    map; there is no area code exactly when no such length exists. *)
Theorem extract_area_code_shortest_first national_number country_info :
  let is_key :=
    area_candidate (default ∅ (cp_area_codes country_info)) national_number in
  (∀ c, _extract_area_code national_number country_info = Some c ↔
        ∃ len, len ∈ [2; 3; 4; 5] ∧ is_key len ∧ c = Py.take len national_number
               ∧ ∀ len', len' ∈ [2; 3; 4; 5] → len' < len → ¬ is_key len')
  ∧ (_extract_area_code national_number country_info = None ↔
     ∀ len, len ∈ [2; 3; 4; 5] → ¬ is_key len).
Proof.
  intros is_key. unfold _extract_area_code. split.
  - intros c. rewrite extract_loop_Some. split.
    + intros (before & len & after & Hl & Hk & -> & Hmin).
      exists len. split; [rewrite Hl, elem_of_app; right; left|]. split; [exact Hk|].
      split; [reflexivity|]. intros len' Hin Hlt. apply Hmin.
      eauto using lengths_before.
    + intros (len & Hin & Hk & -> & Hmin).
      set_unfold. destruct Hin as [->|[->|[->|[->|[]]]]].
      * exists [], 2, [3; 4; 5]. repeat split; try apply Hk. set_solver.
      * exists [2], 3, [4; 5]. repeat split; try apply Hk.
        intros ? ->%list_elem_of_singleton. apply Hmin; set_solver by lia.
      * exists [2; 3], 4, [5]. repeat split; try apply Hk.
        intros ? H. apply Hmin; set_unfold; lia.
      * exists [2; 3; 4], 5, []. repeat split; try apply Hk.
        intros ? H. apply Hmin; set_unfold; lia.
  - apply extract_loop_None.
Qed.

(** With keys 12 and 123 both matching, the two-digit key is returned. *)
Example extract_area_code_overlap :
  _extract_area_code "1234567" overlap_fixture = Some "12".
Proof. vm_compute. reflexivity. Qed.

Lemma extract_area_code_sound n info c :
  _extract_area_code n info = Some c →
  Py.startswith n c = true
  ∧ 2 ≤ String.length c ≤ 5
  ∧ is_Some (default ∅ (cp_area_codes info) !! c).
Proof.
  unfold _extract_area_code. rewrite extract_loop_Some.
  intros (before & len & after & Hl & [Hlen Hkey] & -> & _).
  assert (len ∈ [2; 3; 4; 5]) as Hin by (rewrite Hl, elem_of_app; right; left).
  split; [by apply take_startswith|]. split; [|exact Hkey].
  rewrite length_take by assumption. set_unfold. lia.
Qed.

(** C9.  In every result of [parse_phone_number] that carries an area
    code, the area code is a prefix of the national number, has between two
    and five characters, and is a key of the area-code map of the profile the
    parse resolved to. *)
Theorem area_code_invariant phone_number country_hint p c :
  parse_phone_number phone_number country_hint = Some p →
  area_code p = Some c →
  Py.startswith (national_number p) c = true
  ∧ 2 ≤ String.length c ≤ 5
  ∧ ∃ info,
      Py.assoc (resolve_country (_clean_phone_number phone_number) country_hint)
        phone_db = Some info
      ∧ cp_country_code info = country_code p
      ∧ is_Some (default ∅ (cp_area_codes info) !! c).
Proof.
  intros Hp Hc.
  destruct (parse_phone_number_total phone_number country_hint)
    as (info & _ & Hinfo & Hparse).
  rewrite Hparse in Hp. injection Hp as <-.
  cbn [area_code national_number country_code _parse_for_country] in *.
  apply extract_area_code_sound in Hc as (? & ? & ?). eauto 10.
Qed.

Lemma area_code_invariant_witness :
  Py.startswith "3035550123" "303" = true
  ∧ 2 ≤ String.length "303" ≤ 5
  ∧ ∃ info,
      Py.assoc (resolve_country (_clean_phone_number "+1 (303) 555-0123") None)
        phone_db = Some info
      ∧ cp_country_code info = "US"
      ∧ is_Some (default ∅ (cp_area_codes info) !! "303").
Proof.
  exact (area_code_invariant "+1 (303) 555-0123" None _ "303" eq_refl eq_refl).
Defined.

Lemma startswith_900_9 n : Py.startswith n "900" = true → Py.startswith n "9" = true.
Proof.
  destruct n as [|a n]; cbn; [discriminate|].
  intros [-> _]%andb_prop. reflexivity.
Qed.

(** C8.  On the Brazil profile the classification is never premium: a
    number that starts with 900 starts with the mobile prefix 9, which is
    tested first, and is classified mobile. *)
Theorem brazil_never_premium :
  ∃ info,
    Py.assoc "brazil" phone_db = Some info
    ∧ cp_mobile_prefixes info = ["9"]
    ∧ ∀ n, _determine_phone_type n info ≠ "premium"
           ∧ (Py.startswith n "900" = true →
              Py.startswith n "9" = true ∧ _determine_phone_type n info = "mobile").
Proof.
  eexists. split; [reflexivity|]. split; [reflexivity|]. intros n.
  unfold _determine_phone_type. cbn [cp_mobile_prefixes existsb].
  destruct (Py.startswith n "9") eqn:E9; cbn [orb].
  - split; [discriminate | auto].
  - assert (Py.startswith n "900" = false) as ->.
    { destruct (Py.startswith n "900") eqn:E; [|reflexivity].
      apply startswith_900_9 in E. congruence. }
    split; [|discriminate]. destruct (_ || _); discriminate.
Qed.


(** *** Timezones *)

Lemma get_timezone_cases area_code country_key :
  _get_timezone_for_area_code area_code country_key =
  match timezone_override area_code country_key with
  | Some tz => tz
  | None => default "UTC" (Py.assoc country_key default_timezones)
  end.
Proof.
  unfold _get_timezone_for_area_code, timezone_override.
  destruct (Py.assoc country_key timezone_mapping) as [m|]; [|reflexivity].
  destruct area_code as [ac|]; [|reflexivity].
  cbn. destruct (m !! ac); reflexivity.
Qed.

Lemma override_not_utc area_code country_key tz :
  timezone_override area_code country_key = Some tz → tz ≠ "UTC".
Proof.
  unfold timezone_override.
  destruct (Py.assoc country_key timezone_mapping) as [m|] eqn:E; [|discriminate].
  destruct area_code as [ac|]; [|discriminate]. cbn. intros Hm.
  apply assoc_Some_In in E. unfold timezone_mapping in E.
  repeat (destruct E as [E | E];
          [injection E as _ <-;
           repeat (apply lookup_insert_Some in Hm as [[_ <-]|[_ Hm]];
                   [discriminate|]);
           rewrite lookup_empty in Hm; discriminate Hm|]).
  destruct E.
Qed.

Lemma default_not_utc country_key tz :
  Py.assoc country_key default_timezones = Some tz → tz ≠ "UTC".
Proof.
  intros E%assoc_Some_In. unfold default_timezones in E.
  repeat (destruct E as [E | E]; [injection E as _ <-; discriminate|]).
  destruct E.
Qed.

Lemma no_timezone_tables country_key :
  country_key ∈ ["brazil"; "india"; "japan"; "mexico"] →
  Py.assoc country_key timezone_mapping = None
  ∧ Py.assoc country_key default_timezones = None.
Proof.
  set_unfold. intros [->|[->|[->|[->|[]]]]]; split; reflexivity.
Qed.

Lemma phone_db_keys key info :
  In (key, info) phone_db →
  is_Some (Py.assoc key default_timezones)
  ∨ key ∈ ["brazil"; "india"; "japan"; "mexico"].
Proof.
  unfold phone_db, INTERNATIONAL_PHONE_DATABASE. intros Hin.
  repeat (destruct Hin as [Hin | Hin];
          [injection Hin as <- _;
           first [left; eexists; reflexivity | right; set_unfold; tauto]|]).
  destruct Hin.
Qed.

(** C4, as amended.  For every parsed number the timezone is the entry of
    the override table when the resolved country and the area code are there;
    otherwise the country's default timezone when it has one; and it is UTC
    exactly when the resolved country is one of the four table countries
    without a default timezone: Brazil, India, Japan, Mexico. *)
Theorem timezone_resolution phone_number country_hint :
  let key := resolve_country (_clean_phone_number phone_number) country_hint in
  ∃ p, parse_phone_number phone_number country_hint = Some p
       ∧ timezone p =
         match timezone_override (area_code p) key with
         | Some tz => tz
         | None => default "UTC" (Py.assoc key default_timezones)
         end
       ∧ (timezone p = "UTC" ↔ key ∈ ["brazil"; "india"; "japan"; "mexico"]).
Proof.
  intros key.
  destruct (parse_phone_number_total phone_number country_hint)
    as (info & Hin & _ & Hparse).
  fold key in Hin, Hparse. eexists. split; [exact Hparse|].
  cbn [timezone area_code _parse_for_country].
  set (ac := _extract_area_code _ _). rewrite get_timezone_cases.
  split; [reflexivity|].
  destruct (phone_db_keys _ _ Hin) as [[tz Htz] | Hfour].
  - assert (key ∉ ["brazil"; "india"; "japan"; "mexico"]) as Hnot.
    { intros [_ H]%no_timezone_tables. congruence. }
    destruct (timezone_override ac key) as [t|] eqn:E.
    + apply override_not_utc in E. tauto.
    + rewrite Htz. cbn. apply default_not_utc in Htz. tauto.
  - destruct (no_timezone_tables _ Hfour) as [Hm Hd].
    unfold timezone_override. rewrite Hm, Hd. cbn. tauto.
Qed.

(** C4 as stated fails: a Brazilian number resolves to the Brazil entry of
    the table, a recognized country, and its timezone is UTC. *)
Lemma utc_for_recognized_country :
  ∃ p info,
    parse_phone_number "+55 11 91234-5678" None = Some p
    ∧ In ("brazil", info) phone_db
    ∧ country_code p = cp_country_code info
    ∧ timezone p = "UTC".
Proof.
  eexists _, _. split; [vm_compute; reflexivity|].
  split; [do 6 right; left; reflexivity|]. split; reflexivity.
Qed.


(** *** Dialing instructions *)

Lemma find_by_code_None code db :
  find_by_code code db = None ↔
  ∀ key info, In (key, info) db → cp_country_code info ≠ code.
Proof.
  induction db as [|[k i] db IH]; cbn [find_by_code].
  - split; [intros _ ? ? []|reflexivity].
  - destruct (String.eqb (cp_country_code i) code) eqn:E.
    + apply String.eqb_eq in E. split; [discriminate|].
      intros H. destruct (H k i (or_introl eq_refl) E).
    + apply String.eqb_neq in E. rewrite IH. split.
      * intros H key info [[= <- <-]|Hin]; eauto.
      * intros H key info Hin. apply (H key info). by right.
Qed.

Lemma find_by_code_entry key info :
  In (key, info) phone_db →
  find_by_code (cp_country_code info) phone_db = Some (key, info).
Proof. intros Hin. apply (phone_db_entries key info Hin). Qed.

Lemma is_error_error msg : is_error [("error", msg)].
Proof. unfold is_error. cbn. eauto. Qed.

Lemma not_is_error_domestic a b c :
  ¬ is_error [("domestic", a); ("international", b); ("dial_string", c)].
Proof. unfold is_error. cbn. by intros [? ?]. Qed.

Lemma not_is_error_international a b c :
  ¬ is_error [("international", a); ("dial_string", b); ("instructions", c)].
Proof. unfold is_error. cbn. by intros [? ?]. Qed.

(** [format_for_dialing] on any record whose country code is that of a
    table entry. *)
Lemma format_for_dialing_known phone_info key destination calling_from :
  In (key, destination) phone_db →
  country_code phone_info = cp_country_code destination →
  format_for_dialing phone_info calling_from =
  match find_by_code calling_from phone_db with
  | None => [("error", "Unknown calling country: " +:+ calling_from)]
  | Some (_, origin) =>
      if String.eqb calling_from (country_code phone_info)
      then [("domestic", formatted_number phone_info);
            ("international", international_format phone_info);
            ("dial_string", national_number phone_info)]
      else [("international", international_format phone_info);
            ("dial_string",
             cp_international_prefix origin +:+ calling_digits destination
             +:+ national_number phone_info);
            ("instructions",
             "Dial " +:+ cp_international_prefix origin +:+ " + "
             +:+ calling_digits destination +:+ " + "
             +:+ national_number phone_info)]
  end.
Proof.
  intros Hin Hcode. unfold format_for_dialing.
  destruct (find_by_code calling_from phone_db) as [[k origin]|]; [|reflexivity].
  rewrite Hcode, (find_by_code_entry _ _ Hin).
  cbn [fmap option_fmap option_map compose snd Py.truthy_opt from_option id].
  destruct (phone_db_entries _ _ Hin) as (_ & _ & _ & _ & -> & _).
  reflexivity.
Qed.

(** C7.  For a parsed number, [format_for_dialing] returns an error dict
    exactly when no table entry has the calling-from code.  When the
    calling-from code is the number's own country code, the result carries
    the number's national and international renderings and its national
    number as they are.  When the calling-from code belongs to another
    entry, the dial string is that entry's international prefix, then the
    digits of the destination's calling code, then the national number, and
    an instruction string spells the three parts out. *)
Theorem format_for_dialing_contract phone_number country_hint calling_from :
  ∃ p destination,
    parse_phone_number phone_number country_hint = Some p
    ∧ Py.assoc (resolve_country (_clean_phone_number phone_number) country_hint)
        phone_db = Some destination
    ∧ (is_error (format_for_dialing p calling_from) ↔
       ∀ key info, In (key, info) phone_db → cp_country_code info ≠ calling_from)
    ∧ (calling_from = country_code p →
       format_for_dialing p calling_from =
       [("domestic", formatted_number p);
        ("international", international_format p);
        ("dial_string", national_number p)])
    ∧ (∀ key origin,
         In (key, origin) phone_db → cp_country_code origin = calling_from →
         calling_from ≠ country_code p →
         format_for_dialing p calling_from =
         [("international", international_format p);
          ("dial_string",
           cp_international_prefix origin +:+ calling_digits destination
           +:+ national_number p);
          ("instructions",
           "Dial " +:+ cp_international_prefix origin +:+ " + "
           +:+ calling_digits destination +:+ " + " +:+ national_number p)]).
Proof.
  destruct (parse_phone_number_total phone_number country_hint)
    as (destination & Hin & Hassoc & Hparse).
  eexists _, destination. split; [exact Hparse|]. split; [exact Hassoc|].
  set (p := _parse_for_country _ _ _).
  assert (country_code p = cp_country_code destination) as Hcode by reflexivity.
  rewrite (format_for_dialing_known p _ destination calling_from Hin Hcode).
  clearbody p. split; [|split].
  - rewrite <- find_by_code_None.
    destruct (find_by_code calling_from phone_db) as [[k origin]|].
    + split; [|discriminate].
      destruct (String.eqb _ _); intros H;
        [destruct (not_is_error_domestic _ _ _ H)
        |destruct (not_is_error_international _ _ _ H)].
    + split; [reflexivity|]. intros _. apply is_error_error.
  - intros ->. rewrite Hcode, (find_by_code_entry _ _ Hin), String.eqb_refl.
    reflexivity.
  - intros key origin Hino <- Hne.
    rewrite (find_by_code_entry _ _ Hino).
    apply String.eqb_neq in Hne. rewrite Hne. reflexivity.
Qed.


(** *** Jurisdiction search *)

Section SearchAll.
Variable jurisdictions : list (string * Country).

Lemma search_states_empty_query country_key country_data results :
  search_states "" country_key country_data results
  = results ++ map (state_entry country_key country_data) (j_states country_data).
Proof.
  unfold search_states. generalize (j_states country_data) as states.
  intros states. revert results.
  induction states as [|st states IH]; intros results; cbn [fold_left map].
  - by rewrite app_nil_r.
  - rewrite contains_empty. cbn [orb]. rewrite IH, <- app_assoc. reflexivity.
Qed.

Lemma search_empty_query_from results :
  fold_left
    (λ results (c : string * Country),
       let '(country_key, country_data) := c in
       let results :=
         if Py.contains (Py.lower (j_country_name country_data)) ""
            || Py.contains (Py.lower (j_country_code country_data)) ""
         then results ++ [country_entry country_key country_data]
         else results in
       search_states "" country_key country_data results)
    jurisdictions results
  = results ++ all_entries jurisdictions.
Proof.
  revert results. induction jurisdictions as [|[k cd] js IH]; intros results;
    cbn [fold_left all_entries flat_map].
  - by rewrite app_nil_r.
  - rewrite contains_empty. cbn [orb]. rewrite search_states_empty_query, IH.
    cbn [fst snd]. rewrite <- !app_assoc. reflexivity.
Qed.

Lemma search_jurisdictions_in_empty_query :
  search_jurisdictions_in jurisdictions "" = all_entries jurisdictions.
Proof. unfold search_jurisdictions_in. apply search_empty_query_from. Qed.
End SearchAll.

(** C10.  The empty query returns one country entry for every country and
    one state entry for every state of the table, in table order, each
    country entry immediately before the entries of its own states. *)
Theorem search_jurisdictions_empty_query :
  search_jurisdictions "" = all_entries INTERNATIONAL_JURISDICTIONS.
Proof. apply search_jurisdictions_in_empty_query. Qed.

Example search_colorado :
  search_jurisdictions "colorado"
  = [StateResult "united_states" "United States" "colorado" "Colorado" "CO"
       "Denver" "common_law"].
Proof. vm_compute. reflexivity. Qed.


(** *** Claim-type equivalents *)

Section Equivalents.
Variables (claim_type target : string).

Lemma equivalents_in_systems_elem systems equivalents x :
  NoDup systems.*1 →
  x ∈ equivalents_in_systems claim_type target systems equivalents ↔
  x ∈ equivalents
  ∨ ∃ claims, (target, claims) ∈ systems ∧ listed claim_type claims ∧ x ∈ claims.
Proof.
  induction systems as [|[s cl] systems IH]; cbn [equivalents_in_systems fmap list_fmap fst].
  - intros _. split; [auto|]. intros [?|(? & H & _)]; [done | inversion H].
  - intros [Hs Hnd]%NoDup_cons. destruct (String.eqb s target && _) eqn:E.
    + apply andb_prop in E as [->%String.eqb_eq E]. rewrite elem_of_app. split.
      * intros [?|?]; [by left|]. right. exists cl. split; [left|]. done.
      * intros [?|(claims & Hin & Hl & Hx)]; [by left|].
        apply elem_of_cons in Hin as [[= <-]|Hin]; [by right|].
        destruct Hs. apply list_elem_of_fmap. by exists (target, claims).
    + rewrite IH by assumption. split.
      * intros [?|(claims & Hin & ?)]; [by left|].
        right. exists claims. split; [by right | done].
      * intros [?|(claims & Hin & Hl & Hx)]; [by left|].
        apply elem_of_cons in Hin as [[= <- <-]|Hin].
        -- rewrite String.eqb_refl, Hl in E. discriminate.
        -- right. by exists claims.
Qed.

Lemma equivalents_fold_elem
  (categories : list (string * list (string * list string))) equivalents x :
  Forall (λ cat, NoDup cat.2.*1) categories →
  x ∈ fold_left
        (λ equivalents (cat : string * list (string * list string)),
           equivalents_in_systems claim_type target cat.2 equivalents)
        categories equivalents ↔
  x ∈ equivalents
  ∨ ∃ cat claims, cat ∈ categories ∧ (target, claims) ∈ cat.2
                  ∧ listed claim_type claims ∧ x ∈ claims.
Proof.
  revert equivalents. induction categories as [|cat cats IH]; intros equivalents;
    cbn [fold_left].
  - intros _. split; [auto|]. intros [?|(? & ? & H & _)]; [done | inversion H].
  - intros [Hc Hcs]%Forall_cons. rewrite IH, equivalents_in_systems_elem by assumption.
    split.
    + intros [[?|(claims & ? & ? & ?)]|(c & claims & ? & ?)]; [by left|..].
      * right. exists cat, claims. split; [left|]; done.
      * right. exists c, claims. split; [by right | done].
    + intros [?|(c & claims & [->|?]%elem_of_cons & ? & ? & ?)]; [by left; left|..].
      * left. right. by exists claims.
      * right. by exists c, claims.
Qed.
End Equivalents.

(** What the code returns: the claims of the target system's own lists, in
    the categories where that same list holds the queried claim type. *)
Lemma find_equivalent_claim_types_elem claim_type target x :
  x ∈ find_equivalent_claim_types claim_type target ↔
  ∃ cat claims,
    cat ∈ LEGAL_EQUIVALENCIES ∧ (target, claims) ∈ cat.2
    ∧ listed claim_type claims ∧ x ∈ claims.
Proof.
  unfold find_equivalent_claim_types. rewrite elem_of_list_to_set.
  rewrite equivalents_fold_elem.
  - split; [intros [H|?]; [inversion H | done] | by right].
  - unfold LEGAL_EQUIVALENCIES.
    repeat (apply Forall_cons; split); [..|apply Forall_nil];
      apply (bool_decide_unpack _); vm_compute; exact I.
Qed.

(** C2: the code at the failing input.  Asked for the civil-law equivalents
    of the common-law claim wrongful_termination, the code returns nothing,
    where the specification gives the four civil-law employment claims. *)
Theorem equivalents_tested_against_target_list :
  find_equivalent_claim_types "wrongful_termination" "civil_law" = ∅
  ∧ equivalents_by_source "wrongful_termination" "civil_law"
    = {[ "employment_termination"; "workplace_discrimination";
         "employee_protection"; "salary_disputes" ]}.
Proof. split; vm_compute; reflexivity. Qed.


(** *** Case loading *)

Lemma truthy_state_given state_key :
  state_given state_key =
  if Py.truthy_opt state_key then Some (default "" state_key) else None.
Proof.
  destruct state_key as [s|]; [|reflexivity]. cbn. unfold Py.truthy.
  destruct (String.eqb s ""); reflexivity.
Qed.

(** The test of the loop, read as a proposition: a match on the modern
    fields, or a match on the legacy field of a case whose country is not
    the queried one. *)
Lemma case_selected_iff country_key state_key case :
  case_selected country_key state_key case = true ↔
  modern_match country_key state_key case
  ∨ (¬ same_text (field case "country") country_key
     ∧ legacy_match state_key case).
Proof.
  unfold case_selected, modern_match, legacy_match, same_text, field.
  rewrite truthy_state_given.
  destruct (String.eqb _ (Py.lower country_key)) eqn:Ec.
  - apply String.eqb_eq in Ec.
    destruct (Py.truthy_opt state_key); rewrite ?String.eqb_eq; tauto.
  - apply String.eqb_neq in Ec.
    destruct (Py.truthy_opt state_key); rewrite ?String.eqb_eq;
      intuition discriminate.
Qed.

Section LoadCases.
Variable fs : string → option FileContent.

Lemma path_exists_iff p : path_exists fs p = true ↔ is_Some (fs p).
Proof. unfold path_exists. apply bool_decide_eq_true. Qed.

Lemma path_exists_false p : path_exists fs p = false ↔ fs p = None.
Proof.
  unfold path_exists. rewrite bool_decide_eq_false, <- eq_None_not_Some. tauto.
Qed.

Lemma locate_first p : first_case_file fs p → locate_data_file fs = p.
Proof.
  intros (before & after & Hl & Hp & Hnone). apply path_exists_iff in Hp.
  assert (∀ q, q ∈ before → path_exists fs q = false) as Hb.
  { intros q Hq. apply path_exists_false. auto. }
  unfold locate_data_file. cbn [first_existing]. unfold case_file_paths in Hl.
  destruct before as [|b0 [|b1 [|b2 [|b3 before]]]]; simplify_eq/=.
  - by rewrite Hp.
  - rewrite (Hb "data/client_cases.json"), Hp by (set_unfold; tauto).
    reflexivity.
  - rewrite (Hb "data/client_cases.json"), (Hb "../data/client_cases.json"), Hp
      by (set_unfold; tauto).
    reflexivity.
Qed.

Lemma locate_none :
  (∀ p, p ∈ case_file_paths → fs p = None) → fs (locate_data_file fs) = None.
Proof.
  intros H. unfold locate_data_file. cbn [first_existing].
  assert (∀ p, p ∈ case_file_paths → path_exists fs p = false) as Hb.
  { intros p Hp. apply path_exists_false. auto. }
  rewrite !Hb by (unfold case_file_paths; set_unfold; tauto).
  cbn. apply H. unfold case_file_paths; set_unfold; tauto.
Qed.
End LoadCases.

(** C6, as amended.  With no case file at any of the fixed paths the
    result is empty, and so it is when the first existing file does not load.
    Otherwise the result is the cases of the first existing file, in file
    order, that match on the modern fields (country equal to the query
    country and, when a state is given, state_province equal to the query
    state, letter case aside), or whose country differs from the query
    country and whose legacy jurisdiction field equals the given query state,
    letter case aside.  For ("united_states", "colorado") this keeps a case
    tagged with that country and state and a case tagged only with the legacy
    jurisdiction, and drops a case of the same country and another state. *)
Theorem load_cases_by_jurisdiction_selects fs country_key state_key :
  ((∀ p, p ∈ case_file_paths → fs p = None) →
   load_cases_by_jurisdiction fs country_key state_key = [])
  ∧ (∀ p, first_case_file fs p → fs p = Some Malformed →
          load_cases_by_jurisdiction fs country_key state_key = [])
  ∧ (∀ p all_cases,
       first_case_file fs p → fs p = Some (CaseList all_cases) →
       ∃ keep,
         load_cases_by_jurisdiction fs country_key state_key
         = List.filter keep all_cases
         ∧ ∀ case, keep case = true ↔
             modern_match country_key state_key case
             ∨ (¬ same_text (field case "country") country_key
                ∧ legacy_match state_key case))
  ∧ load_cases_by_jurisdiction
      (sample_fs [modern_colorado_case; california_case; legacy_colorado_case])
      "united_states" (Some "colorado")
    = [modern_colorado_case; legacy_colorado_case].
Proof.
  split; [|split; [|split]]; unfold load_cases_by_jurisdiction, load_cases_body.
  - intros H. by rewrite (locate_none fs H).
  - intros p Hp Hm. by rewrite (locate_first fs p Hp), Hm.
  - intros p all_cases Hp Hc. rewrite (locate_first fs p Hp), Hc.
    exists (case_selected country_key state_key). split; [reflexivity|].
    intros case. apply case_selected_iff.
  - vm_compute. reflexivity.
Qed.

(** C6 as stated fails: a case that carries the queried country, no
    state_province and the legacy jurisdiction colorado matches on the
    legacy field, and is not returned for ("united_states", "colorado"). *)
Lemma legacy_field_ignored_when_country_matches :
  first_case_file (sample_fs [hybrid_case]) "data/client_cases.json"
  ∧ legacy_match (Some "colorado") hybrid_case
  ∧ load_cases_by_jurisdiction (sample_fs [hybrid_case])
      "united_states" (Some "colorado") = [].
Proof.
  split; [|split].
  - exists [], ["../data/client_cases.json"; "client_cases.json"].
    split; [reflexivity|]. split; [eexists; reflexivity|]. intros q H. inversion H.
  - vm_compute. reflexivity.
  - vm_compute. reflexivity.
Qed.


(** *** Worked examples *)

Example parse_denver :
  parse_phone_number "+1 (303) 555-0123" None
  = Some {| raw_number := "+13035550123";
            formatted_number := "(303) 555-0123";
            international_format := "+1 (303) 555-0123";
            country_code := "US";
            national_number := "3035550123";
            area_code := Some "303";
            is_valid := true;
            phone_type := "landline";
            country_name := "United States";
            timezone := "America/Denver" |}.
Proof. vm_compute. reflexivity. Qed.

Example dial_denver_from_london :
  format_for_dialing
    {| raw_number := "+13035550123";
       formatted_number := "(303) 555-0123";
       international_format := "+1 (303) 555-0123";
       country_code := "US";
       national_number := "3035550123";
       area_code := Some "303";
       is_valid := true;
       phone_type := "landline";
       country_name := "United States";
       timezone := "America/Denver" |}
    "GB"
  = [("international", "+1 (303) 555-0123");
     ("dial_string", "0013035550123");
     ("instructions", "Dial 00 + 1 + 3035550123")].
Proof. vm_compute. reflexivity. Qed.


(** ** Further properties of the phone system *)

(** *** Cleaning *)

Lemma digits_only_filter s : digits_only (Py.filter Py.is_digit s) = true.
Proof.
  induction s as [|c s IH]; [reflexivity|]. cbn [Py.filter].
  destruct (Py.is_digit c) eqn:E; [|exact IH]. cbn [digits_only]. by rewrite E.
Qed.

Lemma startswith_plus_digits d : digits_only d = true → Py.startswith d "+" = false.
Proof.
  destruct d as [|c d]; [reflexivity|]. cbn [digits_only Py.startswith].
  intros [Hc _]%andb_prop. by rewrite (digit_not_plus _ Hc).
Qed.

Lemma clean_cases s :
  (Py.startswith s "+" = true
   ∧ _clean_phone_number s = String "+" (Py.strip_non_digits (Py.drop 1 s)))
  ∨ (Py.startswith s "+" = false
     ∧ _clean_phone_number s = Py.strip_non_digits s).
Proof.
  unfold _clean_phone_number. destruct (Py.startswith s "+"); [left | right]; done.
Qed.

Lemma clean_digits s :
  ∃ digits,
    digits_only digits = true
    ∧ _clean_phone_number s
      = if Py.startswith s "+" then "+" +:+ digits else digits.
Proof.
  destruct (clean_cases s) as [[Hp ->]|[Hp ->]]; rewrite Hp;
    (eexists; split; [apply digits_only_filter | reflexivity]).
Qed.

Lemma clean_keeps_plus s :
  Py.startswith (_clean_phone_number s) "+" = Py.startswith s "+".
Proof.
  destruct (clean_cases s) as [[Hp ->]|[Hp ->]]; rewrite Hp; [reflexivity|].
  apply startswith_plus_digits, digits_only_filter.
Qed.

Lemma clean_clean s :
  _clean_phone_number (_clean_phone_number s) = _clean_phone_number s.
Proof.
  destruct (clean_cases s) as [[Hp ->]|[Hp ->]].
  - unfold _clean_phone_number. cbn [Py.startswith Py.drop].
    rewrite Ascii.eqb_refl. cbn [andb]. unfold Py.strip_non_digits.
    rewrite filter_digits_id by apply digits_only_filter. reflexivity.
  - pose proof (digits_only_filter s) as Hd.
    unfold _clean_phone_number, Py.strip_non_digits.
    rewrite startswith_plus_digits by assumption.
    by rewrite filter_digits_id.
Qed.

(** Cleaning twice is cleaning once; a cleaned number is a digit string,
    with a single + in front exactly when the input started with +. *)
Theorem clean_phone_number_idempotent s :
  _clean_phone_number (_clean_phone_number s) = _clean_phone_number s
  ∧ Py.startswith (_clean_phone_number s) "+" = Py.startswith s "+"
  ∧ ∃ digits,
      digits_only digits = true
      ∧ _clean_phone_number s
        = if Py.startswith s "+" then "+" +:+ digits else digits.
Proof.
  split; [|split].
  - apply clean_clean.
  - apply clean_keeps_plus.
  - destruct (clean_cases s) as [[Hp Hc]|[Hp Hc]]; rewrite Hc, Hp;
      (eexists; split; [apply digits_only_filter | reflexivity]).
Qed.

(** The parse reads its input through the cleaning only: the raw number of
    a result parses to the same result. *)
Theorem reparse_raw_number phone_number country_hint p :
  parse_phone_number phone_number country_hint = Some p →
  raw_number p = _clean_phone_number phone_number
  ∧ parse_phone_number (raw_number p) country_hint = Some p.
Proof.
  intros Hp.
  destruct (parse_phone_number_total phone_number country_hint)
    as (info & _ & _ & Hparse).
  assert (raw_number p = _clean_phone_number phone_number) as Hraw.
  { rewrite Hparse in Hp. injection Hp as <-. reflexivity. }
  split; [exact Hraw|]. rewrite Hraw, <- Hp. unfold parse_phone_number.
  by rewrite clean_clean.
Qed.

Lemma reparse_raw_number_witness :
  raw_number
    {| raw_number := "+13035550123";
       formatted_number := "(303) 555-0123";
       international_format := "+1 (303) 555-0123";
       country_code := "US";
       national_number := "3035550123";
       area_code := Some "303";
       is_valid := true;
       phone_type := "landline";
       country_name := "United States";
       timezone := "America/Denver" |}
  = _clean_phone_number "+1 (303) 555-0123"
  ∧ parse_phone_number "+13035550123" None
    = Some {| raw_number := "+13035550123";
              formatted_number := "(303) 555-0123";
              international_format := "+1 (303) 555-0123";
              country_code := "US";
              national_number := "3035550123";
              area_code := Some "303";
              is_valid := true;
              phone_type := "landline";
              country_name := "United States";
              timezone := "America/Denver" |}.
Proof.
  exact (reparse_raw_number "+1 (303) 555-0123" None _ eq_refl).
Defined.

(** *** The country hint *)

Lemma upper_cons c s : Py.upper (String c s) = Py.upper (String c "") +:+ Py.upper s.
Proof.
  cbn [Py.upper].
  destruct (N.eqb _ _); [reflexivity|]. destruct (_ || _); reflexivity.
Qed.

Lemma upper_lower_char c :
  Py.upper (String (Py.lower_char c) "") = Py.upper (String c "").
Proof. destruct c as [[] [] [] [] [] [] [] []]; vm_compute; reflexivity. Qed.

Lemma upper_lower s : Py.upper (Py.lower s) = Py.upper s.
Proof.
  induction s as [|c s IH]; [reflexivity|]. cbn [Py.lower].
  rewrite upper_cons, (upper_cons c), IH, upper_lower_char. reflexivity.
Qed.

Lemma truthy_lower s : Py.truthy (Py.lower s) = Py.truthy s.
Proof. destruct s; reflexivity. Qed.

(** The hint is read without regard to letter case, and a hint that maps
    to a country is that country's ISO code up to case. *)
Theorem country_hint_case_insensitive phone_number hint :
  parse_phone_number phone_number (Some (Py.lower hint))
  = parse_phone_number phone_number (Some hint)
  ∧ ∀ key, _get_country_key_from_code hint = Some key →
           ∃ info, In (key, info) phone_db
                   ∧ cp_country_code info = Py.upper hint.
Proof.
  split.
  - unfold parse_phone_number, resolve_country. cbn [Py.truthy_opt from_option id].
    unfold _get_country_key_from_code. rewrite truthy_lower, upper_lower.
    reflexivity.
  - unfold _get_country_key_from_code. intros key.
    destruct (find_by_code _ _) as [[k i]|] eqn:F; [|discriminate].
    intros [= <-]. apply find_by_code_In in F. eauto.
Qed.


(** *** Shape of the national number *)

(** Calling codes are a + and digits; calling codes and national prefixes
    are non-empty digit strings. *)
Lemma phone_db_codes key info :
  In (key, info) phone_db →
  cp_calling_code info = "+" +:+ calling_digits info
  ∧ digits_only (calling_digits info) = true
  ∧ calling_digits info ≠ ""
  ∧ digits_only (cp_national_prefix info) = true
  ∧ cp_national_prefix info ≠ "".
Proof.
  intros Hin. unfold phone_db, INTERNATIONAL_PHONE_DATABASE in Hin.
  repeat (destruct Hin as [Hin | Hin];
          [injection Hin as <- <-; repeat split; try discriminate;
           vm_compute; reflexivity|]).
  destruct Hin.
Qed.

Lemma detect_loop_None db digits :
  detect_loop digits db = None →
  ∀ key info, In (key, info) db →
              Py.startswith digits (calling_digits info) = false.
Proof.
  induction db as [|[k i] db IH]; cbn [detect_loop]; [intros _ ? ? []|].
  destruct (Py.startswith digits (calling_digits i)) eqn:E; [discriminate|].
  intros H key info [[= <- <-]|Hin]; eauto.
Qed.

Lemma startswith_plus_head d p :
  digits_only p = true → p ≠ "" → Py.startswith (String "+" d) p = false.
Proof.
  destruct p as [|c p]; [done|]. cbn [digits_only Py.startswith].
  intros [Hc _]%andb_prop _.
  destruct (Ascii.eqb_spec c "+") as [->|_]; [discriminate Hc | reflexivity].
Qed.

Lemma startswith_plus_app d p :
  Py.startswith (String "+" d) ("+" +:+ p) = Py.startswith d p.
Proof. rewrite app_cons, app_empty_l. cbn [Py.startswith]. reflexivity. Qed.

Lemma parse_for_country_digits cleaned key info :
  digits_only cleaned = true →
  digits_only (national_number (_parse_for_country cleaned key info)) = true.
Proof.
  intros Hd. unfold _parse_for_country. cbn [national_number].
  repeat match goal with |- context [if ?b then _ else _] => destruct b end;
    auto using digits_only_drop.
Qed.

(** The national number of a result is a digit string, except for an input
    with a leading + whose digits start with no calling code of the table:
    there the cleaned input, + included, is the national number. *)
Theorem national_number_shape phone_number country_hint :
  let cleaned := _clean_phone_number phone_number in
  ∃ p, parse_phone_number phone_number country_hint = Some p
       ∧ if Py.startswith cleaned "+"
            && bool_decide (_detect_country_from_number cleaned = None)
         then national_number p = cleaned
         else digits_only (national_number p) = true.
Proof.
  intros cleaned.
  destruct (parse_phone_number_total phone_number country_hint)
    as (info & Hin & Hassoc & Hparse).
  fold cleaned in Hin, Hassoc, Hparse. eexists. split; [exact Hparse|].
  destruct (phone_db_codes _ _ Hin) as (Hcc & Hccd & Hccn & Hnpd & Hnpn).
  destruct (clean_digits phone_number) as (digits & Hd & Hclean).
  fold cleaned in Hclean.
  destruct (clean_cases phone_number) as [[Hp _]|[Hp _]]; rewrite Hp in Hclean.
  2:{ assert (Py.startswith cleaned "+" = false) as ->.
      { rewrite Hclean. by apply startswith_plus_digits. }
      cbn [andb]. apply parse_for_country_digits. by rewrite Hclean. }
  rewrite app_cons, app_empty_l in Hclean.
  assert (Py.startswith cleaned "+" = true) as Hplus by (by rewrite Hclean).
  rewrite Hplus. cbn [andb]. case_bool_decide as Hdet.
  - unfold _detect_country_from_number in Hdet. rewrite Hplus in Hdet.
    cbn [negb] in Hdet.
    pose proof (detect_loop_None _ _ Hdet _ _ Hin) as Hno.
    rewrite Hclean in *. cbn [Py.drop] in Hno.
    unfold _parse_for_country. cbn [national_number].
    rewrite startswith_plus_app, Hno.
    rewrite !startswith_plus_head by assumption. by rewrite andb_false_r.
  - destruct (_detect_country_from_number cleaned) as [k|] eqn:E; [|done].
    assert (resolve_country cleaned country_hint = k) as Hk.
    { unfold resolve_country. by rewrite E. }
    rewrite Hk in *.
    unfold _detect_country_from_number in E. rewrite Hplus in E. cbn [negb] in E.
    apply detect_loop_first_match in E
      as (before & info' & after & Hdb & Hpre & _).
    assert (In (k, info') phone_db) as Hin'.
    { rewrite Hdb. apply in_or_app. right. by left. }
    destruct (phone_db_entries _ _ Hin') as (Hassoc' & _).
    assert (info' = info) as -> by congruence.
    rewrite Hclean in *. cbn [Py.drop] in Hpre.
    unfold _parse_for_country. cbn [national_number].
    rewrite startswith_plus_app, Hpre, Nat.add_1_r. cbn [Py.drop].
    destruct (_ && _); auto using digits_only_drop.
Qed.

(** *** Validity and classification *)

(** A valid result has at least seven characters in its national number,
    and at most twelve unless the country is Brazil or Mexico, whose rule
    has no upper bound. *)
Theorem valid_length_bounds phone_number country_hint p :
  parse_phone_number phone_number country_hint = Some p →
  is_valid p = true →
  7 ≤ String.length (national_number p)
  ∧ (country_code p ∉ ["BR"; "MX"] → String.length (national_number p) ≤ 12).
Proof.
  intros Hp Hv.
  destruct (parse_phone_number_total phone_number country_hint)
    as (info & Hin & _ & Hparse).
  rewrite Hparse in Hp. injection Hp as <-.
  cbn [is_valid national_number country_code _parse_for_country] in *.
  set (n := if Py.truthy _ && _ then _ else _) in *. clearbody n.
  split; [by apply (validate_length info)|]. intros Hnot.
  unfold phone_db, INTERNATIONAL_PHONE_DATABASE in Hin.
  repeat (destruct Hin as [Hin | Hin];
          [injection Hin as _ <-;
           first [ exfalso; apply Hnot; cbn; set_unfold; tauto
                 | revert Hv; unfold _validate_number_for_country;
                   cbn [cp_country_code Py.mem existsb String.eqb Ascii.eqb Bool.eqb orb];
                   rewrite ?andb_true_iff, ?Nat.eqb_eq, ?Nat.leb_le; lia ]|]).
  destruct Hin.
Qed.

Lemma valid_length_bounds_witness :
  7 ≤ String.length "3035550123"
  ∧ ("US" ∉ ["BR"; "MX"] → String.length "3035550123" ≤ 12).
Proof.
  exact (valid_length_bounds "+1 (303) 555-0123" None _ eq_refl eq_refl).
Defined.

(** The classification is one of four labels, never the label emergency
    that the record's comment lists, and never mobile for the United States
    and Canada, which have no mobile prefix. *)
Theorem phone_type_values phone_number country_hint :
  ∃ p, parse_phone_number phone_number country_hint = Some p
       ∧ phone_type p ∈ ["mobile"; "toll_free"; "premium"; "landline"]
       ∧ phone_type p ≠ "emergency"
       ∧ (country_code p ∈ ["US"; "CA"] → phone_type p ≠ "mobile").
Proof.
  destruct (parse_phone_number_total phone_number country_hint)
    as (info & Hin & _ & Hparse).
  eexists. split; [exact Hparse|].
  cbn [phone_type country_code _parse_for_country].
  set (n := if Py.truthy _ && _ then _ else _). clearbody n.
  unfold _determine_phone_type. split; [|split].
  - repeat match goal with |- context [if ?b then _ else _] => destruct b end;
      set_unfold; tauto.
  - repeat match goal with |- context [if ?b then _ else _] => destruct b end;
      discriminate.
  - intros Hcode.
    assert (cp_mobile_prefixes info = []) as ->.
    { unfold phone_db, INTERNATIONAL_PHONE_DATABASE in Hin.
      repeat (destruct Hin as [Hin | Hin];
              [injection Hin as _ <-;
               first [reflexivity | exfalso; set_unfold in Hcode;
                      destruct Hcode as [?|[?|[]]]; discriminate]|]).
      destruct Hin. }
    cbn [existsb].
    repeat match goal with |- context [if ?b then _ else _] => destruct b end;
      discriminate.
Qed.

(** *** Rendering *)

(** Rendering only inserts separators: the digits of the national rendering
    are the national number, and the digits of the international rendering
    are the calling code followed by the national number. *)
Theorem formatting_keeps_digits key info n :
  In (key, info) phone_db →
  digits_only n = true →
  Py.strip_non_digits (_format_number n info "national") = n
  ∧ Py.strip_non_digits (_format_number n info "international")
    = calling_digits info +:+ n.
Proof.
  intros Hin Hd. destruct (phone_db_codes _ _ Hin) as (Hcc & Hccd & _).
  split; [by apply strip_apply_formatting|].
  change (_format_number n info "international")
    with (cp_calling_code info +:+ " " +:+ _apply_formatting n info).
  rewrite Hcc. unfold Py.strip_non_digits. rewrite !filter_app.
  rewrite (filter_digits_id (calling_digits info)) by assumption.
  change (Py.filter Py.is_digit "+") with "".
  change (Py.filter Py.is_digit " ") with "".
  rewrite !app_empty_l. f_equal. by apply strip_apply_formatting.
Qed.

Lemma formatting_keeps_digits_witness :
  Py.strip_non_digits "(303) 555-0123" = "3035550123"
  ∧ Py.strip_non_digits "+1 (303) 555-0123" = "1" +:+ "3035550123".
Proof.
  exact (formatting_keeps_digits "united_states" _ "3035550123"
           (or_introl eq_refl) eq_refl).
Defined.

(** *** Re-parsing the international rendering *)

Lemma startswith_app_self p s : Py.startswith (p +:+ s) p = true.
Proof.
  induction p as [|c p IH]; [reflexivity|].
  rewrite app_cons. cbn [Py.startswith]. by rewrite Ascii.eqb_refl.
Qed.

Lemma drop_app_length p s : Py.drop (String.length p) (p +:+ s) = s.
Proof.
  induction p as [|c p IH]; [by destruct s|]. rewrite app_cons. exact IH.
Qed.

Lemma parse_for_country_plus n key info :
  Py.startswith n (cp_national_prefix info) = false →
  let p := _parse_for_country (String "+" (calling_digits info +:+ n)) key info in
  national_number p = n
  ∧ is_valid p = _validate_number_for_country n info
  ∧ country_code p = cp_country_code info.
Proof.
  intros Hnp p. subst p. unfold _parse_for_country.
  cbn [national_number is_valid country_code].
  rewrite startswith_plus_app, startswith_app_self, Nat.add_1_r.
  cbn [Py.drop]. rewrite drop_app_length, Hnp, andb_false_r. done.
Qed.

Ltac pick_entry :=
  (left; reflexivity) + (right; pick_entry).

(** The profile that detection picks for a profile's own calling code: the
    profile itself, or the United States for Canada, which shares +1. *)
Lemma detected_profile key info :
  In (key, info) phone_db →
  ∃ key' info',
    In (key', info') phone_db
    ∧ (∀ n, detect_loop (calling_digits info +:+ n) phone_db = Some key')
    ∧ calling_digits info' = calling_digits info
    ∧ cp_national_prefix info' = cp_national_prefix info
    ∧ (∀ n, _validate_number_for_country n info'
            = _validate_number_for_country n info)
    ∧ cp_country_code info'
      = if String.eqb (cp_country_code info) "CA" then "US"
        else cp_country_code info.
Proof.
  intros Hin. unfold phone_db, INTERNATIONAL_PHONE_DATABASE in Hin.
  repeat (destruct Hin as [Hin | Hin];
          [injection Hin as <- <-;
           eexists _, _; (split; [pick_entry|]);
           (split; [intros n; vm_compute; reflexivity|]);
           repeat split; reflexivity|]).
  destruct Hin.
Qed.

(** A digit string that does not start with the profile's national prefix
    comes back from its international rendering, whatever the hint: same
    national number, same validity, and the profile's own country, except
    that a Canadian rendering is read as a United States number. *)
Theorem roundtrip_international key info n country_hint :
  In (key, info) phone_db →
  digits_only n = true →
  Py.startswith n (cp_national_prefix info) = false →
  ∃ p, parse_phone_number (_format_number n info "international") country_hint
       = Some p
       ∧ national_number p = n
       ∧ is_valid p = _validate_number_for_country n info
       ∧ country_code p
         = if String.eqb (cp_country_code info) "CA" then "US"
           else cp_country_code info.
Proof.
  intros Hin Hd Hnp.
  destruct (phone_db_codes _ _ Hin) as (Hcc & _).
  destruct (detected_profile key info Hin)
    as (key' & info' & Hin' & Hdet & Hcd & Hnp' & Hval & Hcode).
  destruct (phone_db_entries _ _ Hin') as (Hassoc & _).
  assert (_clean_phone_number (_format_number n info "international")
          = String "+" (calling_digits info +:+ n)) as Hclean.
  { unfold _clean_phone_number.
    change (_format_number n info "international")
      with (cp_calling_code info +:+ " " +:+ _apply_formatting n info).
    rewrite Hcc, !app_cons, !app_empty_l.
    cbn [Py.startswith Py.drop]. rewrite Ascii.eqb_refl. cbn [andb].
    unfold Py.strip_non_digits. rewrite filter_app.
    rewrite filter_digits_id by apply (phone_db_codes _ _ Hin).
    cbn [Py.filter Py.is_digit]. f_equal. f_equal.
    by apply strip_apply_formatting. }
  assert (resolve_country (String "+" (calling_digits info +:+ n)) country_hint
          = key') as Hres.
  { unfold resolve_country, _detect_country_from_number.
    cbn [Py.startswith Py.drop]. rewrite Ascii.eqb_refl. cbn [andb negb].
    by rewrite Hdet. }
  rewrite <- Hnp' in Hnp.
  destruct (parse_for_country_plus n key' info' Hnp) as (H1 & H2 & H3).
  rewrite Hcd in *.
  exists (_parse_for_country (String "+" (calling_digits info +:+ n)) key' info').
  split; [|split; [|split]]; try congruence.
  unfold parse_phone_number. rewrite Hclean, Hres, Hassoc. reflexivity.
Qed.

Lemma roundtrip_international_witness :
  ∃ p, parse_phone_number "+1 (416) 555-0123" (Some "CA") = Some p
       ∧ national_number p = "4165550123"
       ∧ is_valid p = true
       ∧ country_code p = "US".
Proof.
  exact (roundtrip_international "canada" _ "4165550123" (Some "CA")
           (or_intror (or_introl eq_refl)) eq_refl eq_refl).
Defined.

(** *** Area codes behind a national prefix *)

Lemma startswith_trans s c p :
  Py.startswith s c = true → Py.startswith c p = true → Py.startswith s p = true.
Proof.
  revert s c. induction p as [|a p IH]; intros s c; [reflexivity|].
  destruct c as [|b c]; [discriminate|]. destruct s as [|d s]; [discriminate|].
  cbn [Py.startswith]. intros [->%Ascii.eqb_eq Hs]%andb_prop [-> Hc]%andb_prop.
  cbn [andb]. eauto.
Qed.

(** In the five profiles whose national prefix is 0 and that list area
    codes, every area code starts with that 0. *)
Lemma zero_prefixed_area_codes key info c :
  In (key, info) phone_db →
  cp_country_code info ∈ ["AU"; "GB"; "DE"; "FR"; "JP"] →
  is_Some (default ∅ (cp_area_codes info) !! c) →
  Py.startswith c "0" = true.
Proof.
  intros Hin Hcode [v Hv]. unfold phone_db, INTERNATIONAL_PHONE_DATABASE in Hin.
  repeat (destruct Hin as [Hin | Hin];
          [injection Hin as _ <-;
           first [ exfalso; set_unfold in Hcode;
                   repeat (destruct Hcode as [Hcode|Hcode];
                           [discriminate Hcode|]); exact Hcode
                 | cbn [cp_area_codes from_option id] in Hv;
                   repeat (apply lookup_insert_Some in Hv as [[<- _]|[_ Hv]];
                           [reflexivity|]);
                   rewrite lookup_empty in Hv; discriminate Hv ]|]).
  destruct Hin.
Qed.

(** For Australia, the United Kingdom, Germany, France and Japan an area
    code is found only in a national number that still starts with 0, that
    is, when the input carried a second 0 after the one that was stripped. *)
Theorem area_code_needs_leading_zero phone_number country_hint p c :
  parse_phone_number phone_number country_hint = Some p →
  country_code p ∈ ["AU"; "GB"; "DE"; "FR"; "JP"] →
  area_code p = Some c →
  Py.startswith (national_number p) "0" = true.
Proof.
  intros Hp Hcode Hc.
  destruct (parse_phone_number_total phone_number country_hint)
    as (info & Hin & _ & Hparse).
  rewrite Hparse in Hp. injection Hp as <-.
  cbn [area_code national_number country_code _parse_for_country] in *.
  apply extract_area_code_sound in Hc as (Hpre & _ & Hkey).
  eapply startswith_trans; [exact Hpre|].
  eapply zero_prefixed_area_codes; eassumption.
Qed.

Lemma area_code_needs_leading_zero_witness :
  Py.startswith "0298765432" "0" = true.
Proof.
  refine (area_code_needs_leading_zero "+61 0 02 9876 5432" None _ "02"
            eq_refl _ eq_refl).
  apply (bool_decide_unpack _). exact I.
Defined.

(** *** Emergency numbers, area locations, client validation *)

(** The emergency table of every profile names the four services and has
    no error entry. *)
Lemma phone_db_emergency key info :
  In (key, info) phone_db →
  ¬ is_error (cp_emergency_numbers info)
  ∧ ∀ service, service ∈ ["police"; "fire"; "medical"; "general"] →
               is_Some (Py.assoc service (cp_emergency_numbers info)).
Proof.
  intros Hin. unfold phone_db, INTERNATIONAL_PHONE_DATABASE in Hin.
  repeat (destruct Hin as [Hin | Hin];
          [injection Hin as _ <-; split;
           [intros [? H]; discriminate H
           |intros service Hs; set_unfold in Hs;
            destruct Hs as [->|[->|[->|[->|[]]]]]; eexists; reflexivity]|]).
  destruct Hin.
Qed.

(** [get_emergency_numbers] answers with an error dict exactly for a code
    that is no ISO code of the table, letter case included; for a code of the
    table it returns that profile's numbers, which always name the police,
    fire, medical and general services. *)
Theorem emergency_numbers_lookup code :
  (is_error (get_emergency_numbers code) ↔
   ∀ key info, In (key, info) phone_db → cp_country_code info ≠ code)
  ∧ (∀ key info,
       In (key, info) phone_db → cp_country_code info = code →
       get_emergency_numbers code = cp_emergency_numbers info
       ∧ ∀ service, service ∈ ["police"; "fire"; "medical"; "general"] →
                    is_Some (Py.assoc service (get_emergency_numbers code))).
Proof.
  unfold get_emergency_numbers. split.
  - rewrite <- find_by_code_None.
    destruct (find_by_code code phone_db) as [[k i]|] eqn:F.
    + apply find_by_code_In in F as [Hin _].
      split; [|discriminate]. intros H.
      destruct (proj1 (phone_db_emergency _ _ Hin) H).
    + split; [reflexivity|]. intros _. apply is_error_error.
  - intros key info Hin <-. rewrite (find_by_code_entry _ _ Hin).
    split; [reflexivity|]. apply (phone_db_emergency _ _ Hin).
Qed.

(** No location label of the table is the text returned for an unknown
    location. *)
Lemma phone_db_labels key info c label :
  In (key, info) phone_db →
  default ∅ (cp_area_codes info) !! c = Some label →
  label ≠ "Unknown location".
Proof.
  intros Hin Hv. unfold phone_db, INTERNATIONAL_PHONE_DATABASE in Hin.
  repeat (destruct Hin as [Hin | Hin];
          [injection Hin as _ <-;
           cbn [cp_area_codes from_option id] in Hv;
           unfold us_area_codes, ca_area_codes in Hv;
           first
             [ apply elem_of_list_to_map_2 in Hv;
               repeat (apply elem_of_cons in Hv as [Hv'|Hv];
                       [injection Hv' as _ ->; discriminate|]);
               by apply elem_of_nil in Hv
             | repeat (apply lookup_insert_Some in Hv as [[_ <-]|[_ Hv]];
                       [discriminate|]);
               rewrite lookup_empty in Hv; discriminate Hv ]|]).
  destruct Hin.
Qed.

(** [validate_client_phone] always answers.  Its fields repeat the parse;
    its emergency numbers are those of the resolved profile, never an error
    dict; its area location is the table's label of the area code when the
    parse found one, and the text for an unknown location exactly when it
    found none. *)
Theorem validate_client_phone_consistent phone_number country_hint :
  ∃ v p info,
    validate_client_phone phone_number country_hint = Some v
    ∧ parse_phone_number phone_number country_hint = Some p
    ∧ Py.assoc (resolve_country (_clean_phone_number phone_number) country_hint)
        phone_db = Some info
    ∧ v_is_valid v = is_valid p
    ∧ v_formatted_number v = formatted_number p
    ∧ v_international_format v = international_format p
    ∧ v_country v = cp_country_name info
    ∧ v_phone_type v = phone_type p
    ∧ v_timezone v = timezone p
    ∧ v_emergency_numbers v = cp_emergency_numbers info
    ∧ (∀ c, area_code p = Some c →
            default ∅ (cp_area_codes info) !! c = Some (v_area_location v))
    ∧ (v_area_location v = "Unknown location" ↔ area_code p = None).
Proof.
  destruct (parse_phone_number_total phone_number country_hint)
    as (info & Hin & Hassoc & Hparse).
  unfold validate_client_phone. rewrite Hparse. cbn [mbind option_bind].
  eexists _, _, info. split; [reflexivity|]. split; [reflexivity|].
  split; [exact Hassoc|].
  cbn [v_is_valid v_formatted_number v_international_format v_country
       v_phone_type v_timezone v_emergency_numbers v_area_location].
  repeat (split; [reflexivity|]).
  set (p := _parse_for_country _ _ _).
  assert (country_code p = cp_country_code info) as -> by reflexivity.
  unfold get_emergency_numbers, _get_area_location.
  rewrite (find_by_code_entry _ _ Hin).
  split; [reflexivity|].
  assert (area_code p = _extract_area_code (national_number p) info) as Hac
    by reflexivity.
  destruct (area_code p) as [c|] eqn:E; cbn [mbind option_bind].
  - symmetry in Hac. apply extract_area_code_sound in Hac as (_ & _ & [l Hl]).
    rewrite Hl. cbn [from_option id]. split.
    + intros c' [= <-]. exact Hl.
    + split; [|discriminate]. intros ->.
      by destruct (phone_db_labels _ _ _ _ Hin Hl).
  - split; [discriminate | done].
Qed.

(** *** Dialing, for any record *)

(** Whatever record is passed, [format_for_dialing] answers with an error
    dict exactly when the calling-from code or the record's country code is
    no ISO code of the table. *)
Theorem format_for_dialing_errors phone_info calling_from :
  is_error (format_for_dialing phone_info calling_from) ↔
  (∀ key info, In (key, info) phone_db → cp_country_code info ≠ calling_from)
  ∨ (∀ key info, In (key, info) phone_db →
                 cp_country_code info ≠ country_code phone_info).
Proof.
  rewrite <- !find_by_code_None. unfold format_for_dialing.
  destruct (find_by_code calling_from phone_db) as [[k origin]|].
  2:{ split; [by left|]. intros _. apply is_error_error. }
  destruct (find_by_code (country_code phone_info) phone_db)
    as [[k' target]|] eqn:F;
    cbn [fmap option_fmap option_map compose snd Py.truthy_opt from_option id negb].
  2:{ split; [by right|]. intros _. apply is_error_error. }
  apply find_by_code_In in F as [Hin _].
  destruct (phone_db_entries _ _ Hin) as (_ & _ & _ & _ & -> & _). cbn [negb].
  split; [|intros [?|?]; discriminate].
  destruct (String.eqb _ _); intros H;
    [destruct (not_is_error_domestic _ _ _ H)
    |destruct (not_is_error_international _ _ _ H)].
Qed.

(** ** Postal codes *)

(** *** The matcher accepts the language of its pattern *)

Lemma app_eq_empty s t : s +:+ t = "" → s = "" ∧ t = "".
Proof. destruct s; [done | discriminate]. Qed.

Lemma app_eq_cons s t c u :
  s +:+ t = String c u →
  (s = "" ∧ t = String c u) ∨ (∃ s', s = String c s' ∧ u = s' +:+ t).
Proof.
  destruct s as [|a s]; [by left|]. rewrite app_cons. intros [= -> <-].
  right. eauto.
Qed.

Lemma nullable_accepts r : Re.nullable r = true ↔ accepts r "".
Proof.
  induction r as [| |p|r1 IH1 r2 IH2|r1 IH1 r2 IH2]; cbn [Re.nullable].
  - split; [discriminate | inversion 1].
  - split; [constructor | done].
  - split; [discriminate | inversion 1].
  - rewrite andb_true_iff, IH1, IH2. split.
    + intros [H1 H2]. exact (accepts_seq _ _ "" "" H1 H2).
    + inversion 1 as [| |? ? s1 s2 H1 H2 E1 E2| |]; subst.
      apply app_eq_empty in E2 as [-> ->]. done.
  - rewrite orb_true_iff, IH1, IH2. split.
    + intros [?|?]; [by apply accepts_alt_l | by apply accepts_alt_r].
    + inversion 1; subst; auto.
Qed.

Lemma deriv_accepts r c s : accepts (Re.deriv c r) s ↔ accepts r (String c s).
Proof.
  revert s. induction r as [| |p|r1 IH1 r2 IH2|r1 IH1 r2 IH2]; intros s;
    cbn [Re.deriv].
  - split; inversion 1.
  - split; inversion 1.
  - destruct (p c) eqn:E; split.
    + inversion 1; subst. by constructor.
    + inversion 1; subst. constructor.
    + inversion 1.
    + inversion 1; subst. congruence.
  - assert (∀ s, accepts (Re.Seq (Re.deriv c r1) r2) s →
                 accepts (Re.Seq r1 r2) (String c s)) as Hl.
    { intros s0. inversion 1 as [| |? ? s1 s2 H1 H2 E1 E2| |]; subst.
      apply IH1 in H1. exact (accepts_seq _ _ (String c s1) s2 H1 H2). }
    assert (∀ s, accepts (Re.Seq r1 r2) (String c s) →
                 (accepts r1 "" ∧ accepts r2 (String c s))
                 ∨ accepts (Re.Seq (Re.deriv c r1) r2) s) as Hr.
    { intros s0. inversion 1 as [| |? ? s1 s2 H1 H2 E1 E2| |]; subst.
      apply app_eq_cons in E2 as [[-> ->]|(s1' & -> & ->)]; [by left|].
      right. apply IH1 in H1. by constructor. }
    destruct (Re.nullable r1) eqn:N.
    + apply nullable_accepts in N. split.
      * inversion 1; subst; [by apply Hl|].
        apply (accepts_seq _ _ "" (String c s)); [done | by apply IH2].
      * intros [[_ H]|H]%Hr; [|by apply accepts_alt_l].
        apply accepts_alt_r. by apply IH2.
    + split; [apply Hl|]. intros [[H _]|H]%Hr; [|done].
      apply nullable_accepts in H. congruence.
  - split.
    + inversion 1; subst;
        [apply accepts_alt_l; by apply IH1 | apply accepts_alt_r; by apply IH2].
    + inversion 1; subst;
        [apply accepts_alt_l; by apply IH1 | apply accepts_alt_r; by apply IH2].
Qed.

Lemma fullmatch_accepts r s : Re.fullmatch r s = true ↔ accepts r s.
Proof.
  revert r. induction s as [|c s IH]; intros r; cbn [Re.fullmatch].
  - apply nullable_accepts.
  - rewrite IH. apply deriv_accepts.
Qed.

(** *** A pattern accepts what fits one of its class lists *)

Lemma fits_app x y s1 s2 :
  fits x s1 = true → fits y s2 = true → fits (x ++ y) (s1 +:+ s2) = true.
Proof.
  revert s1. induction x as [|p x IH]; intros [|c s1]; cbn [fits];
    try discriminate; [done|].
  intros [Hp H]%andb_prop Hy. rewrite app_cons. cbn [app fits].
  rewrite Hp. cbn [andb]. auto.
Qed.

Lemma fits_app_inv x y s :
  fits (x ++ y) s = true →
  ∃ s1 s2, s = s1 +:+ s2 ∧ fits x s1 = true ∧ fits y s2 = true.
Proof.
  revert s. induction x as [|p x IH]; intros s; cbn [app].
  - intros H. by exists "", s.
  - destruct s as [|c s]; cbn [fits]; [discriminate|].
    intros [Hp (s1 & s2 & -> & H1 & H2)%IH]%andb_prop.
    exists (String c s1), s2. cbn [fits]. by rewrite Hp, H1.
Qed.

Lemma accepts_expand r s :
  accepts r s ↔ ∃ classes, classes ∈ expand r ∧ fits classes s = true.
Proof.
  split.
  - induction 1 as [|p c Hp|r1 r2 s1 s2 _ (x & Hx & Hfx) _ (y & Hy & Hfy)
                    |r1 r2 s _ (x & Hx & Hfx)|r1 r2 s _ (x & Hx & Hfx)];
      cbn [expand].
    + exists []. split; [by left | done].
    + exists [p]. split; [by left|]. cbn. by rewrite Hp.
    + exists (x ++ y). split; [|by apply fits_app].
      apply list_elem_of_bind. exists x. split; [|done].
      apply list_elem_of_bind. exists y. split; [by left | done].
    + exists x. split; [|done]. apply elem_of_app. by left.
    + exists x. split; [|done]. apply elem_of_app. by right.
  - revert s. induction r as [| |p|r1 IH1 r2 IH2|r1 IH1 r2 IH2]; intros s;
      cbn [expand]; intros (x & Hx & Hf).
    + inversion Hx.
    + apply list_elem_of_singleton in Hx as ->. destruct s; [constructor | done].
    + apply list_elem_of_singleton in Hx as ->.
      destruct s as [|c [|]]; cbn in Hf; try discriminate.
      * constructor. by destruct (p c).
      * by rewrite andb_false_r in Hf.
    + apply list_elem_of_bind in Hx as (x1 & Hx & Hx1).
      apply list_elem_of_bind in Hx as (x2 & Hx & Hx2).
      apply list_elem_of_singleton in Hx as ->.
      apply fits_app_inv in Hf as (s1 & s2 & -> & H1 & H2).
      constructor; eauto.
    + apply elem_of_app in Hx as [Hx|Hx];
        [apply accepts_alt_l | apply accepts_alt_r]; eauto.
Qed.

(** *** Stripping *)

Lemma rstrip_cons c s :
  Py.rstrip (String c s)
  = match Py.rstrip s with
    | EmptyString => if Py.is_space c then "" else String c ""
    | r => String c r
    end.
Proof. reflexivity. Qed.

Lemma rstrip_head c s :
  Py.rstrip (String c s) = "" ∨ ∃ r, Py.rstrip (String c s) = String c r.
Proof.
  rewrite rstrip_cons. destruct (Py.rstrip s); [|eauto].
  destruct (Py.is_space c); eauto.
Qed.

Lemma rstrip_rstrip s : Py.rstrip (Py.rstrip s) = Py.rstrip s.
Proof.
  induction s as [|c s IH]; [reflexivity|]. rewrite rstrip_cons.
  destruct (Py.rstrip s) as [|d r] eqn:E.
  - destruct (Py.is_space c) eqn:Ec; [reflexivity|].
    rewrite rstrip_cons. cbn [Py.rstrip]. by rewrite Ec.
  - rewrite rstrip_cons, IH. reflexivity.
Qed.

Lemma lstrip_head s :
  Py.lstrip s = "" ∨ ∃ c r, Py.lstrip s = String c r ∧ Py.is_space c = false.
Proof.
  induction s as [|c s IH]; [by left|]. cbn [Py.lstrip].
  destruct (Py.is_space c) eqn:E; [exact IH|]. right. eauto.
Qed.

Lemma strip_strip s : Py.strip (Py.strip s) = Py.strip s.
Proof.
  unfold Py.strip. destruct (lstrip_head s) as [->|(c & r & -> & Hc)];
    [reflexivity|].
  destruct (rstrip_head c r) as [E|[r' E]]; [by rewrite E|].
  assert (Py.lstrip (Py.rstrip (String c r)) = Py.rstrip (String c r)) as ->.
  { rewrite E. cbn [Py.lstrip]. by rewrite Hc. }
  apply rstrip_rstrip.
Qed.

Lemma newline_is_space c : Ascii.eqb c "010" = true → Py.is_space c = true.
Proof. intros ->%Ascii.eqb_eq. reflexivity. Qed.

Lemma chomp_rstrip s : Re.chomp (Py.rstrip s) = None.
Proof.
  induction s as [|c s IH]; [reflexivity|]. rewrite rstrip_cons.
  destruct (Py.rstrip s) as [|d r] eqn:E.
  - destruct (Py.is_space c) eqn:Ec; [reflexivity|]. cbn [Re.chomp].
    destruct (Ascii.eqb c "010") eqn:En; [|reflexivity].
    apply newline_is_space in En. congruence.
  - change (Re.chomp (String c (String d r)))
      with (String c <$> Re.chomp (String d r)).
    by rewrite IH.
Qed.

(** After [strip] the [$] has no newline to let pass. *)
Lemma match_anchored_strip r s :
  Re.match_anchored r (Py.strip s) = true ↔ accepts r (Py.strip s).
Proof.
  unfold Re.match_anchored, Py.strip. rewrite chomp_rstrip, orb_false_r.
  apply fullmatch_accepts.
Qed.

(** *** Which codes are valid *)

(** Each pattern of the table has the class lists of its templates. *)
Lemma postal_patterns_templates code :
  match Py.assoc code postal_patterns, Py.assoc code postal_templates with
  | Some r, Some ts => expand r = map template ts
  | None, None => True
  | _, _ => False
  end.
Proof.
  unfold postal_patterns, postal_templates. cbn [Py.assoc].
  repeat (destruct (String.eqb _ code); [reflexivity|]). exact I.
Qed.

Lemma pattern_templates code s :
  match Py.assoc code postal_patterns with
  | Some r =>
      ∃ ts, Py.assoc code postal_templates = Some ts
            ∧ (Re.match_anchored r (Py.strip s) = true ↔
               ∃ t, t ∈ ts ∧ fits (template t) (Py.strip s) = true)
  | None => Py.assoc code postal_templates = None
  end.
Proof.
  pose proof (postal_patterns_templates code) as H.
  destruct (Py.assoc _ postal_patterns) as [r|],
           (Py.assoc _ postal_templates) as [ts|]; try done.
  exists ts. split; [reflexivity|].
  rewrite match_anchored_strip, accepts_expand, H. split.
  - intros (cl & (t & -> & Ht)%list_elem_of_fmap & Hf). eauto.
  - intros (t & Ht & Hf). exists (template t). split; [|done].
    apply list_elem_of_fmap. eauto.
Qed.

(** A postal code is valid exactly when, stripped of surrounding white
    space and as it stands otherwise, it fits one of the templates of the
    country, the country code being read without regard to letter case. *)
Theorem postal_code_templates postal_code country_code :
  (validate_postal_code postal_code country_code).1 = true ↔
  ∃ ts t, Py.assoc (Py.upper country_code) postal_templates = Some ts
          ∧ t ∈ ts
          ∧ fits (template t) (Py.strip postal_code) = true.
Proof.
  unfold validate_postal_code.
  pose proof (pattern_templates (Py.upper country_code) postal_code) as H.
  destruct (Py.assoc _ postal_patterns) as [r|].
  2:{ rewrite H. cbn. split; [discriminate|]. by intros (? & ? & ? & _). }
  destruct H as (ts & -> & Hm).
  destruct (Re.match_anchored r _); cbn [fst]; split.
  - intros _. destruct (proj1 Hm eq_refl) as (t & ? & ?). eauto.
  - done.
  - discriminate.
  - intros (ts' & t & [= <-] & Ht & Hf). apply Hm. eauto.
Qed.

(** The answer carries one of three messages.  The message for a missing
    pattern is given exactly for a country code that, in capitals, is none of
    US, CA, AU, GB, DE, FR; no code is valid for such a country. *)
Theorem postal_code_messages postal_code country_code :
  let answer := validate_postal_code postal_code country_code in
  (answer = (true, "Valid postal code format")
   ∨ answer = (false, "Invalid format for " +:+ country_code)
   ∨ answer = (false, "No validation pattern for country " +:+ country_code))
  ∧ (answer = (false, "No validation pattern for country " +:+ country_code) ↔
     Py.upper country_code ∉ ["US"; "CA"; "AU"; "GB"; "DE"; "FR"]).
Proof.
  cbv zeta. unfold validate_postal_code.
  assert (is_Some (Py.assoc (Py.upper country_code) postal_patterns) ↔
          Py.upper country_code ∈ ["US"; "CA"; "AU"; "GB"; "DE"; "FR"]) as Hk.
  { unfold postal_patterns. cbn [Py.assoc].
    repeat (match goal with
            | |- context [String.eqb ?a (Py.upper country_code)] =>
                destruct (String.eqb_spec a (Py.upper country_code)) as [<-|?]
            end;
            [split; intros _;
               [apply (bool_decide_unpack _); vm_compute; exact I
               |eexists; reflexivity]|]).
    split; [by intros [? ?]|].
    intros H. set_unfold in H.
    repeat (destruct H as [H|H]; [congruence|]). destruct H. }
  destruct (Py.assoc _ postal_patterns) as [r|].
  - destruct (Re.match_anchored r _); (split; [auto|]).
    + split; [discriminate|]. intros H. destruct H. apply Hk. eauto.
    + split; [|intros H; destruct H; apply Hk; eauto].
      intros [= H].
  - split; [auto|]. split; [|done]. intros _ H. apply Hk in H as [? ?]. done.
Qed.

(** White space around the postal code and the letter case of the country
    code make no difference to the verdict. *)
Theorem postal_code_normalised postal_code country_code :
  validate_postal_code (Py.strip postal_code) country_code
  = validate_postal_code postal_code country_code
  ∧ (validate_postal_code postal_code (Py.lower country_code)).1
    = (validate_postal_code postal_code country_code).1.
Proof.
  unfold validate_postal_code. rewrite strip_strip, upper_lower.
  split; [reflexivity|].
  destruct (Py.assoc _ _); [|reflexivity]. by destruct (Re.match_anchored _ _).
Qed.

Lemma lstrip_lower s : ∃ u, Py.lstrip (Py.lower s) = Py.lower u.
Proof.
  induction s as [|c s IH]; [by exists ""|]. cbn [Py.lower Py.lstrip].
  destruct (Py.is_space _); [exact IH|]. by exists (String c s).
Qed.

Lemma strip_lower_head s c r :
  Py.strip (Py.lower s) = String c r → ∃ c0, c = Py.lower_char c0.
Proof.
  unfold Py.strip. destruct (lstrip_lower s) as [[|c0 u] ->]; [discriminate|].
  cbn [Py.lower]. destruct (rstrip_head (Py.lower_char c0) (Py.lower u))
    as [->|[r' ->]]; [discriminate|].
  intros [= <- _]. eauto.
Qed.

Lemma lower_char_not_upper c : Py.is_upper (Py.lower_char c) = false.
Proof. destruct c as [[] [] [] [] [] [] [] []]; vm_compute; reflexivity. Qed.

(** The postal code itself is not put in capitals: a Canadian or British
    code written in small letters is never valid. *)
Theorem postal_code_small_letters_rejected postal_code country_code :
  Py.upper country_code ∈ ["CA"; "GB"] →
  (validate_postal_code (Py.lower postal_code) country_code).1 = false.
Proof.
  intros Hcode. unfold validate_postal_code.
  pose proof (pattern_templates (Py.upper country_code) (Py.lower postal_code))
    as H.
  destruct (Py.assoc _ postal_patterns) as [r|]; [|reflexivity].
  destruct H as (ts & Hts & Hm).
  destruct (Re.match_anchored r _); [|reflexivity]. exfalso.
  destruct (proj1 Hm eq_refl) as (t & Ht & Hf).
  assert (∃ t', t = String "A" t') as [t' ->].
  { set_unfold in Hcode. destruct Hcode as [E|[E|[]]]; rewrite E in Hts;
      injection Hts as <-; set_unfold in Ht;
      repeat (destruct Ht as [->|Ht]; [eauto|]); destruct Ht. }
  destruct (Py.strip (Py.lower postal_code)) as [|c z] eqn:E; [discriminate|].
  apply strip_lower_head in E as [c0 ->].
  cbn [template fits] in Hf. apply andb_prop in Hf as [Hu _].
  change (template_class "A") with Py.is_upper in Hu.
  by rewrite lower_char_not_upper in Hu.
Qed.

Lemma postal_code_small_letters_rejected_witness :
  (validate_postal_code (Py.lower "K1A 0B1") "ca").1 = false.
Proof.
  apply postal_code_small_letters_rejected.
  apply (bool_decide_unpack _). vm_compute. exact I.
Defined.

Example postal_code_examples :
  validate_postal_code "80202" "US" = (true, "Valid postal code format")
  ∧ validate_postal_code " 80202-1234 " "us" = (true, "Valid postal code format")
  ∧ validate_postal_code "ABC" "US" = (false, "Invalid format for US")
  ∧ validate_postal_code "K1A 0B1" "CA" = (true, "Valid postal code format")
  ∧ validate_postal_code "SW1A 1AA" "GB" = (true, "Valid postal code format")
  ∧ validate_postal_code "110001" "IN"
    = (false, "No validation pattern for country IN").
Proof. repeat split; vm_compute; reflexivity. Qed.

(** ** Further properties of the jurisdiction manager *)

(** *** What a search returns *)

Section SearchShape.
Variables (jurisdictions : list (string * Country)) (query : string).

Lemma search_states_filter country_key country_data results :
  search_states (Py.lower query) country_key country_data results
  = results
    ++ map (state_entry country_key country_data)
         (List.filter
            (λ st : string * State,
               Py.contains (Py.lower (st_name st.2)) (Py.lower query)
               || Py.contains (Py.lower (st_code st.2)) (Py.lower query)
               || Py.contains (Py.lower st.1) (Py.lower query))
            (j_states country_data)).
Proof.
  unfold search_states. generalize (j_states country_data) as states.
  intros states. revert results.
  induction states as [|st states IH]; intros results;
    cbn [fold_left List.filter].
  - by rewrite app_nil_r.
  - rewrite IH. destruct (_ || _); [|reflexivity].
    cbn [map]. by rewrite <- app_assoc.
Qed.

Lemma search_from results :
  fold_left
    (λ results (c : string * Country),
       let '(country_key, country_data) := c in
       let results :=
         if Py.contains (Py.lower (j_country_name country_data)) (Py.lower query)
            || Py.contains (Py.lower (j_country_code country_data)) (Py.lower query)
         then results ++ [country_entry country_key country_data]
         else results in
       search_states (Py.lower query) country_key country_data results)
    jurisdictions results
  = results ++ flat_map (found_in query) jurisdictions.
Proof.
  revert results. induction jurisdictions as [|[k cd] js IH]; intros results;
    cbn [fold_left flat_map].
  - by rewrite app_nil_r.
  - rewrite search_states_filter, IH. unfold found_in at 2. cbn [fst snd].
    destruct (_ || _); by rewrite <- ?app_assoc.
Qed.

(** The loops build the concatenation of what each country contributes. *)
Lemma search_flat_map :
  search_jurisdictions_in jurisdictions query
  = flat_map (found_in query) jurisdictions.
Proof. unfold search_jurisdictions_in. apply search_from. Qed.

Lemma sublist_bool_filter {A} (f : A → bool) (l : list A) :
  sublist (List.filter f l) l.
Proof.
  induction l as [|x l IH]; cbn; [constructor|].
  destruct (f x); by constructor.
Qed.

Lemma sublist_map {A B} (f : A → B) (l1 l2 : list A) :
  sublist l1 l2 → sublist (map f l1) (map f l2).
Proof. induction 1; cbn; by constructor. Qed.

Lemma found_in_sublist c :
  sublist (found_in query c)
    (country_entry c.1 c.2 :: map (state_entry c.1 c.2) (j_states c.2)).
Proof.
  unfold found_in. destruct (_ || _); cbn [app].
  - apply sublist_skip, sublist_map, sublist_bool_filter.
  - apply sublist_cons, sublist_map, sublist_bool_filter.
Qed.

Lemma search_sublist :
  sublist (search_jurisdictions_in jurisdictions query) (all_entries jurisdictions).
Proof.
  rewrite search_flat_map. unfold all_entries.
  induction jurisdictions as [|c js IH]; cbn [flat_map]; [constructor|].
  apply sublist_app; [apply found_in_sublist | exact IH].
Qed.

Lemma filter_In_iff {A} (f : A → bool) (l : list A) x :
  x ∈ List.filter f l ↔ x ∈ l ∧ f x = true.
Proof. rewrite !list_elem_of_In. apply filter_In. Qed.

End SearchShape.

(** For any table and query the result holds exactly the entries of the
    countries whose name or code contains the query and of the states whose
    name, code or key contains it, letter case aside. *)
Theorem search_results_exact jurisdictions query r :
  r ∈ search_jurisdictions_in jurisdictions query ↔
  (∃ c, c ∈ jurisdictions ∧ r = country_entry c.1 c.2
        ∧ country_matches query c.2)
  ∨ (∃ c st, c ∈ jurisdictions ∧ st ∈ j_states c.2
             ∧ r = state_entry c.1 c.2 st ∧ state_matches query st).
Proof.
  rewrite search_flat_map, list_elem_of_In, in_flat_map.
  unfold found_in, country_matches, state_matches. split.
  - intros (c & Hc%list_elem_of_In & Hr%list_elem_of_In).
    apply elem_of_app in Hr as [Hr|Hr].
    + left. exists c. destruct (_ || _) eqn:E; [|inversion Hr].
      apply list_elem_of_singleton in Hr. apply orb_prop in E. done.
    + right. apply list_elem_of_fmap in Hr as (st & -> & Hst).
      apply filter_In_iff in Hst as [Hst E]. exists c, st.
      rewrite !orb_true_iff in E. repeat split; tauto.
  - intros [(c & Hc & -> & E)|(c & st & Hc & Hst & -> & E)];
      exists c; (split; [by apply list_elem_of_In|]);
      apply list_elem_of_In, elem_of_app.
    + left. rewrite <- orb_true_iff in E. rewrite E. by left.
    + right. apply list_elem_of_fmap. exists st. split; [done|].
      apply filter_In_iff. split; [done|]. rewrite !orb_true_iff. tauto.
Qed.


(** The result of a search is a sub-list of the full listing: entries come
    in table order, and none of the table's entries comes twice. *)
Theorem search_results_in_table_order query :
  sublist (search_jurisdictions query) (search_jurisdictions "")
  ∧ NoDup (search_jurisdictions query).
Proof.
  assert (search_jurisdictions "" = all_entries INTERNATIONAL_JURISDICTIONS) as ->
    by apply search_jurisdictions_in_empty_query.
  pose proof (search_sublist INTERNATIONAL_JURISDICTIONS query) as H.
  split; [exact H|]. eapply sublist_NoDup; [|exact H].
  apply (bool_decide_unpack _). vm_compute. exact I.
Qed.

(** *** Lookups *)

(** Every key of the table leads the lookups to its own entry. *)
Lemma table_lookup c :
  In c INTERNATIONAL_JURISDICTIONS →
  get_country_info c.1 = Some c.2
  ∧ ∀ st, In st (j_states c.2) → get_state_info c.1 st.1 = Some st.2.
Proof.
  unfold INTERNATIONAL_JURISDICTIONS. intros Hc.
  repeat (destruct Hc as [<-|Hc];
          [split; [vm_compute; reflexivity|];
           intros st Hst; cbn [j_states snd] in Hst;
           repeat (destruct Hst as [<-|Hst]; [vm_compute; reflexivity|]);
           destruct Hst|]).
  destruct Hc.
Qed.

Lemma all_entries_elem jurisdictions r :
  r ∈ all_entries jurisdictions →
  ∃ c, In c jurisdictions
       ∧ (r = country_entry c.1 c.2
          ∨ ∃ st, In st (j_states c.2) ∧ r = state_entry c.1 c.2 st).
Proof.
  unfold all_entries. rewrite list_elem_of_In, in_flat_map.
  intros (c & Hc & [<-|Hr]); exists c; (split; [done|]); [by left|].
  right. apply in_map_iff in Hr as (st & <- & Hst). eauto.
Qed.

(** What a search returns can be looked up: the keys of a returned country
    or state lead [get_country_info] and [get_state_info] to the data shown
    in the entry. *)
Theorem search_results_can_be_looked_up query r :
  r ∈ search_jurisdictions query →
  match r with
  | CountryResult key name code legal_system =>
      ∃ cd, get_country_info key = Some cd
            ∧ name = j_country_name cd ∧ code = j_country_code cd
            ∧ legal_system = j_legal_system cd
  | StateResult country_key country_name state_key state_name
      state_code capital legal_system =>
      ∃ cd st, get_country_info country_key = Some cd
               ∧ get_state_info country_key state_key = Some st
               ∧ country_name = j_country_name cd
               ∧ state_name = st_name st ∧ state_code = st_code st
               ∧ capital = st_capital st
               ∧ legal_system = j_legal_system cd
  end.
Proof.
  intros Hr.
  pose proof (search_sublist INTERNATIONAL_JURISDICTIONS query) as Hs.
  apply (elem_of_sublist _ _ _ Hr), all_entries_elem in Hs
    as (c & Hc & [->|(st & Hst & ->)]);
    destruct (table_lookup c Hc) as [Hcd Hstates].
  - exists c.2. by rewrite Hcd.
  - exists c.2, st.2. by rewrite Hcd, (Hstates st Hst).
Qed.

Lemma search_results_can_be_looked_up_witness :
  ∃ cd st, get_country_info "united_states" = Some cd
           ∧ get_state_info "united_states" "colorado" = Some st
           ∧ "United States" = j_country_name cd
           ∧ "Colorado" = st_name st ∧ "CO" = st_code st
           ∧ "Denver" = st_capital st
           ∧ "common_law" = j_legal_system cd.
Proof.
  apply (search_results_can_be_looked_up "colorado"
           (StateResult "united_states" "United States" "colorado" "Colorado"
              "CO" "Denver" "common_law")).
  apply (bool_decide_unpack _). vm_compute. exact I.
Defined.

Lemma lower_lower_char c : Py.lower_char (Py.lower_char c) = Py.lower_char c.
Proof. destruct c as [[] [] [] [] [] [] [] []]; vm_compute; reflexivity. Qed.

Lemma lower_lower s : Py.lower (Py.lower s) = Py.lower s.
Proof.
  induction s as [|c s IH]; [reflexivity|]. cbn [Py.lower].
  by rewrite lower_lower_char, IH.
Qed.

(** Both lookups read their keys without regard to letter case; a state is
    found only under a country that is found, and an unknown key gives
    nothing rather than an error. *)
Theorem lookups_by_key country_key state_key :
  get_country_info (Py.lower country_key) = get_country_info country_key
  ∧ get_state_info (Py.lower country_key) (Py.lower state_key)
    = get_state_info country_key state_key
  ∧ (get_country_info country_key = None →
     get_state_info country_key state_key = None)
  ∧ (∀ st, get_state_info country_key state_key = Some st →
           ∃ cd, get_country_info country_key = Some cd
                 ∧ (Py.lower country_key, cd) ∈ INTERNATIONAL_JURISDICTIONS
                 ∧ (Py.lower state_key, st) ∈ j_states cd).
Proof.
  unfold get_state_info, get_country_info. rewrite !lower_lower.
  split; [reflexivity|]. split; [reflexivity|]. split.
  - by intros ->.
  - intros st. destruct (Py.assoc _ INTERNATIONAL_JURISDICTIONS) as [cd|] eqn:E;
      [|discriminate].
    cbn [mbind option_bind]. intros Hst. exists cd. split; [reflexivity|].
    split; apply list_elem_of_In; by apply assoc_Some_In.
Qed.

(** *** Case loading: the query *)

(** The query is read without regard to letter case, an empty state is no
    state, and the result is a sub-list of the cases of the file: cases are
    never altered, reordered or repeated. *)
Theorem load_cases_query fs country_key state_key all_cases :
  fs (locate_data_file fs) = Some (CaseList all_cases) →
  load_cases_by_jurisdiction fs (Py.lower country_key) (Py.lower <$> state_key)
  = load_cases_by_jurisdiction fs country_key state_key
  ∧ load_cases_by_jurisdiction fs country_key (Some "")
    = load_cases_by_jurisdiction fs country_key None
  ∧ sublist (load_cases_by_jurisdiction fs country_key state_key) all_cases.
Proof.
  intros Hfs. unfold load_cases_by_jurisdiction, load_cases_body. rewrite Hfs.
  split; [|split].
  - f_equal. unfold case_selected.
    destruct state_key as [s|]; cbn [fmap option_fmap option_map Py.truthy_opt
                                     from_option id];
      by rewrite ?truthy_lower, !lower_lower.
  - reflexivity.
  - apply sublist_bool_filter.
Qed.

Lemma load_cases_query_witness :
  load_cases_by_jurisdiction (sample_fs [modern_colorado_case; california_case])
    (Py.lower "United_States") (Py.lower <$> Some "Colorado")
  = load_cases_by_jurisdiction (sample_fs [modern_colorado_case; california_case])
      "United_States" (Some "Colorado")
  ∧ load_cases_by_jurisdiction (sample_fs [modern_colorado_case; california_case])
      "United_States" (Some "")
    = load_cases_by_jurisdiction (sample_fs [modern_colorado_case; california_case])
        "United_States" None
  ∧ sublist
      (load_cases_by_jurisdiction
         (sample_fs [modern_colorado_case; california_case])
         "United_States" (Some "Colorado"))
      [modern_colorado_case; california_case].
Proof.
  exact (load_cases_query (sample_fs [modern_colorado_case; california_case])
           "United_States" (Some "Colorado") _ eq_refl).
Defined.

(** ** The tables of the communications module *)

(** The list of supported countries is the list of ISO codes of the phone
    table, in table order, and the quick emergency table has one number for
    each of them: the profile's general number, except for Brazil, where it
    is the police number. *)
Theorem communications_tables_agree :
  SUPPORTED_PHONE_COUNTRIES = map (λ e, cp_country_code e.2) phone_db
  ∧ map fst EMERGENCY_NUMBERS = SUPPORTED_PHONE_COUNTRIES
  ∧ ∀ code number,
      Py.assoc code EMERGENCY_NUMBERS = Some number →
      Py.assoc (if String.eqb code "BR" then "police" else "general")
        (get_emergency_numbers code) = Some number.
Proof.
  split; [reflexivity|]. split; [reflexivity|].
  intros code number H. apply assoc_Some_In in H. unfold EMERGENCY_NUMBERS in H.
  repeat (destruct H as [[= <- <-]|H]; [vm_compute; reflexivity|]).
  destruct H.
Qed.
